(** * Attachment text extraction and code-language utilities

    A shallow embedding of the two helper modules of the chat example:

    - the attachment text extractor ([extractTextFromPDF],
      [processAttachments]), which decodes a PDF data URL and delegates to
      pdf.js;
    - the code-language utility (the [hljs.registerLanguage] table,
      [detectLanguage], [highlightCode]), which configures highlight.js.

    Both modules are TypeScript.  Their arguments are typed [any[]] and
    [string], so the embedding works over a small model of JavaScript
    values, and a function that can throw (or an async function whose
    promise can reject) returns a [Result].  The third-party libraries
    (pdf.js, highlight.js) and the platform function [atob] are not part
    of the modules; they are taken as interfaces.  A string is a sequence
    of 8-bit characters, which is what a binary string and a data URL
    are. *)

From Stdlib Require Import Ascii String DecimalString.
From stdpp Require Import gmap strings list.

Set Default Proof Using "Type".

(** ** Characters that cannot be written inside a literal *)

Definition LF : string := String "010"%char EmptyString.
Definition DQUOTE : string := String "034"%char EmptyString.

(** ** Exceptions and the error monad *)

(** A thrown value.  Everything the modules can catch is an [Error]
    object (a [TypeError] raised by the language itself, a [DOMException]
    raised by [atob], the exception classes of pdf.js and highlight.js);
    the handlers only ever read its [message]. *)
Record JsError := mkError { message : string }.

Inductive Result (A : Type) : Type :=
| Ok (a : A)
| Throw (e : JsError).
Arguments Ok {A} a.
Arguments Throw {A} e.

Definition bind {A B} (c : Result A) (k : A -> Result B) : Result B :=
  match c with
  | Ok a => k a
  | Throw e => Throw e
  end.

Notation "x <- c ;; k" := (bind c (fun x => k))
  (at level 100, c at next level, right associativity).

(** [try { body } catch (error) { handler }] *)
Definition try_catch {A} (body : Result A) (handler : JsError -> Result A) : Result A :=
  match body with
  | Ok a => Ok a
  | Throw e => handler e
  end.

(** [for (const x of l) { s = body(s, x) }]: the loop stops at the first
    iteration that throws. *)
Fixpoint for_of {A S} (l : list A) (body : S -> A -> Result S) (s : S) : Result S :=
  match l with
  | [] => Ok s
  | x :: rest => s' <- body s x ;; for_of rest body s'
  end.

Definition returns {A} (c : Result A) : Prop := exists a, c = Ok a.

Definition TypeError (msg : string) : JsError := mkError msg.

(** ** JavaScript values *)

(** The values a request body can carry, plus [undefined].  Numbers come
    in three kinds.  [JNum z] is the integer [z] of the safe range (below
    2^53 in absolute value), where JavaScript prints the decimal digits.
    [JDouble text] is any other number that is neither zero nor [NaN] (a
    fraction, an integer beyond the safe range, an infinity), given by
    the text JavaScript prints for it.  [JNaN] is kept apart because it
    is falsy.  [JObj] lists the own properties of a plain object. *)
#[warnings="-register-all"] Inductive JsValue : Type :=
| JUndefined
| JNull
| JBool (b : bool)
| JNaN
| JNum (z : Z)
| JDouble (text : string)
| JStr (s : string)
| JArr (elems : list JsValue)
| JObj (props : list (string * JsValue)).

(** ToBoolean: what [!v] and [a && v] test. *)
Definition truthy (v : JsValue) : bool :=
  match v with
  | JUndefined | JNull | JNaN => false
  | JBool b => b
  | JNum z => negb (z =? 0)%Z
  | JDouble _ => true
  | JStr s => negb (String.eqb s EmptyString)
  | JArr _ | JObj _ => true
  end.

(** [Array.isArray(v)] *)
Definition isArray (v : JsValue) : bool :=
  match v with
  | JArr _ => true
  | _ => false
  end.

(** The elements of an array ([[]] for anything else, which the callers
    exclude beforehand). *)
Definition elements_of (v : JsValue) : list JsValue :=
  match v with
  | JArr l => l
  | _ => []
  end.

(** [v === JStr s] *)
Definition strict_eq_string (v : JsValue) (s : string) : bool :=
  match v with
  | JStr t => String.eqb t s
  | _ => false
  end.

Fixpoint assoc (key : string) (props : list (string * JsValue)) : option JsValue :=
  match props with
  | [] => None
  | (k, v) :: rest => if String.eqb k key then Some v else assoc key rest
  end.

(** [v.key], for a key that no built-in prototype defines (this holds for
    [name], [contentType] and [url], the only keys the extractor reads):
    reading a property of [undefined] or [null] throws a [TypeError], a
    missing property reads as [undefined]. *)
Definition getProp (v : JsValue) (key : string) : Result JsValue :=
  match v with
  | JUndefined =>
      Throw (TypeError ("Cannot read properties of undefined (reading '" +:+ key +:+ "')"))
  | JNull =>
      Throw (TypeError ("Cannot read properties of null (reading '" +:+ key +:+ "')"))
  | JObj props => Ok (default JUndefined (assoc key props))
  | _ => Ok JUndefined
  end.

Definition showNat (n : nat) : string := NilZero.string_of_uint (Nat.to_uint n).
Definition showZ (z : Z) : string := NilZero.string_of_int (Z.to_int z).

(** ToString, as a template literal applies it to an interpolated value.
    An array prints its elements separated by commas, with [undefined]
    and [null] elements printed as nothing.  A plain object prints as
    [[object Object]] through [Object.prototype.toString]; an own
    [toString] property shadows that method and, being data, cannot be
    called, so the conversion throws. *)
Fixpoint ToString (v : JsValue) : Result string :=
  match v with
  | JUndefined => Ok "undefined"
  | JNull => Ok "null"
  | JBool true => Ok "true"
  | JBool false => Ok "false"
  | JNaN => Ok "NaN"
  | JNum z => Ok (showZ z)
  | JDouble text => Ok text
  | JStr s => Ok s
  | JArr elems =>
      (fix joinElems (l : list JsValue) : Result string :=
         match l with
         | [] => Ok EmptyString
         | x :: rest =>
             s <- match x with
                  | JUndefined | JNull => Ok EmptyString
                  | _ => ToString x
                  end ;;
             match rest with
             | [] => Ok s
             | _ :: _ => r <- joinElems rest ;; Ok (s +:+ "," +:+ r)
             end
         end) elems
  | JObj props =>
      match assoc "toString" props with
      | Some _ => Throw (TypeError "Cannot convert object to primitive value")
      | None => Ok "[object Object]"
      end
  end.

(** ** Strings *)

(** [s.split(sep)] for a one-character separator. *)
Fixpoint split (sep : ascii) (s : string) : list string :=
  match s with
  | EmptyString => [EmptyString]
  | String c rest =>
      if Ascii.eqb c sep then EmptyString :: split sep rest
      else match split sep rest with
           | [] => [String c EmptyString]
           | hd :: tl => String c hd :: tl
           end
  end.

(** [l.join(sep)]: the accumulator [R] receives the separator before
    every element but the first. *)
Fixpoint join_from (sep : string) (R : string) (k : nat) (l : list string) : string :=
  match l with
  | [] => R
  | x :: rest =>
      join_from sep ((if (k =? 0)%nat then R else R +:+ sep) +:+ x) (S k) rest
  end.

Definition join (sep : string) (l : list string) : string :=
  join_from sep EmptyString 0 l.

(** [s.toLowerCase()]: the letters A to Z are lowered, every other
    character of an 8-bit string is left as it is. *)
Definition lowerChar (c : ascii) : ascii :=
  let n := N_of_ascii c in
  if (65 <=? n)%N && (n <=? 90)%N then ascii_of_N (n + 32) else c.

Fixpoint toLowerCase (s : string) : string :=
  match s with
  | EmptyString => EmptyString
  | String c rest => String (lowerChar c) (toLowerCase rest)
  end.

(** [a[i]] on an array of strings: out of range reads as [undefined]. *)
Definition index_of (a : list string) (i : nat) : JsValue :=
  match a !! i with
  | Some s => JStr s
  | None => JUndefined
  end.

(** * The attachment text extractor *)

(** ** pdf.js and the platform, as the extractor uses them *)

(** One entry of [textContent.items]. *)
Record TextItem := { str : string }.

Record TextContent := { items : list TextItem }.

(** [page.getTextContent()], awaited. *)
Record PDFPageProxy := { getTextContent : Result TextContent }.

(** [pdf.numPages] and [pdf.getPage(i)], awaited. *)
Record PDFDocumentProxy := {
  numPages : nat;
  getPage : nat -> Result PDFPageProxy
}.

(** [atob] decodes a base64 string into a binary string, one character
    per byte, or throws; [getDocument] stands for
    [pdfjsLib.getDocument({ data }).promise], awaited. *)
Class PdfHost := {
  atob : string -> Result string;
  getDocument : list Byte.byte -> Result PDFDocumentProxy
}.

Section Extractor.
Context {host : PdfHost}.

(** [pdfDataUrl.split(',')]: only a string has the method. *)
Definition callSplit (pdfDataUrl : JsValue) : Result (list string) :=
  match pdfDataUrl with
  | JStr s => Ok (split ","%char s)
  | JUndefined => Throw (TypeError "Cannot read properties of undefined (reading 'split')")
  | JNull => Throw (TypeError "Cannot read properties of null (reading 'split')")
  | _ => Throw (TypeError "pdfDataUrl.split is not a function")
  end.

(** The [Uint8Array] filled with the character codes of the binary
    string. *)
Definition bytesOf (binaryString : string) : list Byte.byte :=
  list_byte_of_string binaryString.

(** The separator line and text appended for page [i]. *)
Definition pageBlock (i : nat) (textItems : string) : string :=
  LF +:+ "--- Page " +:+ showNat i +:+ " ---" +:+ LF +:+ textItems +:+ LF.

(** The body of the page loop. *)
Definition extractPage (pdf : PDFDocumentProxy) (fullText : string) (i : nat) : Result string :=
  page <- getPage pdf i ;;
  textContent <- getTextContent page ;;
  let textItems := join " " (map str (items textContent)) in
  Ok (fullText +:+ pageBlock i textItems).

(** What the [catch] clause returns. *)
Definition extractionFailure (error : JsError) : string :=
  "[Unable to extract PDF content. Error: " +:+ message error +:+ "]".

Definition extractTextFromPDF (pdfDataUrl : JsValue) : Result string :=
  try_catch
    (parts <- callSplit pdfDataUrl ;;
     let base64Data := index_of parts 1 in
     encoded <- ToString base64Data ;;
     binaryString <- atob encoded ;;
     let bytes := bytesOf binaryString in
     pdf <- getDocument bytes ;;
     for_of (seq 1 (numPages pdf)) (extractPage pdf) EmptyString)
    (fun error => Ok (extractionFailure error)).

(** The text appended for one PDF attachment. *)
Definition attachmentBlock (name pdfText : string) : string :=
  LF +:+ LF +:+ "Content from PDF file " +:+ DQUOTE +:+ name +:+ DQUOTE +:+ ":" +:+ LF
     +:+ pdfText +:+ LF +:+ LF.

(** The body of the attachment loop.  The two [console.log] calls write
    nothing into the result, but their arguments are evaluated, and
    reading a property can throw. *)
Definition processAttachment (extractedContent : string) (attachment : JsValue) : Result string :=
  _ <- getProp attachment "name" ;;
  _ <- getProp attachment "contentType" ;;
  contentType <- getProp attachment "contentType" ;;
  if strict_eq_string contentType "application/pdf" then
    url <- getProp attachment "url" ;;
    if truthy url then
      _ <- getProp attachment "name" ;;
      url <- getProp attachment "url" ;;
      pdfText <- extractTextFromPDF url ;;
      name <- getProp attachment "name" ;;
      name <- ToString name ;;
      Ok (extractedContent +:+ attachmentBlock name pdfText)
    else Ok extractedContent
  else Ok extractedContent.

Definition processAttachments (attachments : JsValue) : Result string :=
  if negb (truthy attachments) || negb (isArray attachments)
     || (length (elements_of attachments) =? 0)%nat
  then Ok EmptyString
  else for_of (elements_of attachments) processAttachment EmptyString.

End Extractor.

(** * The code-language utility *)

(** ** The grammars imported from [highlight.js/lib/languages/] *)

Module Languages.

Inductive Grammar : Set :=
| python | typescript | javascript | java | bash | shell | json | yaml
| xml | markdown | css | scss | sql | php | csharp | cpp | go | rust
| swift | kotlin | ruby | dart | diff | dockerfile | graphql | http | ini
| latex | objectivec | perl | plaintext | r | scala | powershell.

#[global] Instance Grammar_eq_dec : EqDecision Grammar.
Proof. solve_decision. Defined.

End Languages.
Abbreviation Grammar := Languages.Grammar.

(** ** The highlight.js instance *)

(** The part of highlight.js the module relies on:
    - [getLanguage] resolves a language name for the utilities, given
      the table of registered names;
    - [render g code] is the markup highlight.js produces for [code]
      under an already resolved grammar, or the exception it raises;
    - [highlightAuto languages code subset] is the [language] field of
      the result of [hljs.highlightAuto(code, subset)], [None] when the
      field is [undefined];
    - [declaredAliases g] is the [aliases] array the grammar module [g]
      declares for itself. *)
Class HighlightJs := {
  getLanguage : gmap string Grammar -> string -> option Grammar;
  render : Grammar -> string -> Result string;
  highlightAuto : gmap string Grammar -> string -> list string -> Result (option string);
  declaredAliases : Grammar -> list string
}.

(** The state of the shared [hljs] object: [languages] holds the names
    passed to [hljs.registerLanguage], [aliases] sends each alias a
    registered grammar declares to the name it was registered under. *)
Record Hljs := mkHljs {
  languages : gmap string Grammar;
  aliases : gmap string string
}.

(** [registerAliases(aliasList, { languageName })] *)
Definition registerAliases (aliasList : list string) (languageName : string)
    (table : gmap string string) : gmap string string :=
  foldl (fun table alias => <[toLowerCase alias := languageName]> table) table aliasList.

(** [hljs.registerLanguage(languageName, grammar)]: the grammar is
    stored under the name, and the aliases it declares are pointed at
    that name; a later registration replaces an earlier one, for the name
    and for each alias. *)
Definition registerLanguage {lib : HighlightJs}
    (languageName : string) (g : Grammar) (h : Hljs) : Hljs :=
  mkHljs (<[languageName := g]> (languages h))
         (registerAliases (declaredAliases g) languageName (aliases h)).

(** [hljs.getLanguage(name)] as highlight.js implements it on an
    instance: the name is lower-cased and looked up among the registered
    names, then among the aliases.  The theorems about the two utilities
    do not depend on it: they hold for every [getLanguage] of the
    interface that gives registered names their grammar. *)
Definition hljs_getLanguage (h : Hljs) (name : string) : option Grammar :=
  let name := toLowerCase name in
  match languages h !! name with
  | Some g => Some g
  | None =>
      match aliases h !! name with
      | Some languageName => languages h !! languageName
      | None => None
      end
  end.

Section Registration.
Import Languages.

(** The registrations the module performs when it is loaded, in source
    order. *)
Definition registrations : list (string * Grammar) :=
  [ ("python", python); ("typescript", typescript); ("javascript", javascript);
    ("js", javascript); ("java", java); ("bash", bash); ("shell", shell);
    ("sh", shell); ("json", json); ("yaml", yaml); ("yml", yaml); ("xml", xml);
    ("html", xml); ("markdown", markdown); ("md", markdown); ("css", css);
    ("scss", scss); ("sql", sql); ("php", php); ("csharp", csharp);
    ("cs", csharp); ("cpp", cpp); ("c++", cpp); ("go", go); ("golang", go);
    ("rust", rust); ("rs", rust); ("swift", swift); ("kotlin", kotlin);
    ("kt", kotlin); ("ruby", ruby); ("rb", ruby); ("dart", dart); ("diff", diff);
    ("dockerfile", dockerfile); ("docker", dockerfile); ("graphql", graphql);
    ("gql", graphql); ("http", http); ("ini", ini); ("latex", latex);
    ("tex", latex); ("objectivec", objectivec); ("objc", objectivec);
    ("perl", perl); ("pl", perl); ("plaintext", plaintext); ("text", plaintext);
    ("r", r); ("scala", scala); ("powershell", powershell); ("ps", powershell) ].

End Registration.

(** The [hljs] object once the module is loaded. *)
Definition hljs {lib : HighlightJs} : Hljs :=
  foldl (fun h entry => registerLanguage entry.1 entry.2 h) (mkHljs ∅ ∅) registrations.

(** Calls on the shared instance: a computation reads (and could write)
    the instance and returns or throws. *)
Definition M (A : Type) : Type := Hljs -> Result A * Hljs.

Definition retM {A} (a : A) : M A := fun h => (Ok a, h).

Definition bindM {A B} (c : M A) (k : A -> M B) : M B :=
  fun h =>
    match c h with
    | (Ok a, h') => k a h'
    | (Throw e, h') => (Throw e, h')
    end.

Notation "x <~ c ;; k" := (bindM c (fun x => k))
  (at level 100, c at next level, right associativity).

Definition try_catchM {A} (body : M A) (handler : JsError -> M A) : M A :=
  fun h =>
    match body h with
    | (Ok a, h') => (Ok a, h')
    | (Throw e, h') => handler e h'
    end.

Section Highlighting.
Context {lib : HighlightJs}.

Definition unknownLanguage (language : string) : JsError :=
  mkError ("Unknown language: " +:+ DQUOTE +:+ language +:+ DQUOTE).

(** [hljs.highlight(code, { language }).value]: highlight.js throws when
    the name does not resolve. *)
Definition hljs_highlight (code language : string) : M string :=
  fun h =>
    (match getLanguage (languages h) language with
     | None => Throw (unknownLanguage language)
     | Some g => render g code
     end, h).

(** [hljs.highlightAuto(code, subset).language] *)
Definition hljs_highlightAuto (code : string) (subset : list string) : M (option string) :=
  fun h => (highlightAuto (languages h) code subset, h).

Definition detectCandidates : list string :=
  [ "typescript"; "javascript"; "python"; "java"; "html"; "css";
    "json"; "bash"; "yaml"; "sql"; "php"; "csharp"; "cpp" ].

(** [language || fallback] on a value that is a string or [undefined]. *)
Definition or_else (language : option string) (fallback : string) : string :=
  match language with
  | Some l => if truthy (JStr l) then l else fallback
  | None => fallback
  end.

Definition detectLanguage (code : string) : M string :=
  detection <~ hljs_highlightAuto code detectCandidates ;;
  retM (or_else detection "plaintext").

(** [!language] on the optional parameter. *)
Definition omitted (language : option string) : bool :=
  match language with
  | Some l => negb (truthy (JStr l))
  | None => true
  end.

(** [if (!language) { language = detectLanguage(code); }] *)
Definition resolveLanguage (code : string) (language : option string) : M string :=
  if omitted language then detectLanguage code
  else retM (default EmptyString language).

Definition highlightCode (code : string) (language : option string) : M string :=
  language <~ resolveLanguage code language ;;
  try_catchM (hljs_highlight code language)
             (fun error => hljs_highlight code "plaintext").

End Highlighting.

(** * The chat route *)

(** ** What an error handler can be handed *)

(** The argument of [getErrorMessage] is typed [unknown]: a plain value,
    or an [Error] instance. *)
Inductive Unknown : Type :=
| Plain (v : JsValue)
| ErrorObject (e : JsError).

(** [!error] *)
Definition falsy (error : Unknown) : bool :=
  match error with
  | Plain v => negb (truthy v)
  | ErrorObject _ => false
  end.

(** The [getErrorMessage] option the route passes to
    [toDataStreamResponse]. *)
Definition getErrorMessage (error : Unknown) : string :=
  if falsy error then "Unknown error"
  else
    match error with
    | Plain (JStr s) => s
    | ErrorObject e =>
        if truthy (JStr (message e)) then message e
        else "An error occurred while processing."
    | Plain _ => "An unexpected error occurred."
    end.

(** ** The AI SDK and the request, as the route uses them *)

(** [openai modelId apiKey] stands for [openai(modelId, { apiKey })],
    [streamText model system messages] for
    [streamText({ model, system, messages })], and
    [toDataStreamResponse result sendUsage getErrorMessage] for
    [result.toDataStreamResponse({ sendUsage, getErrorMessage })]. *)
Class AiSdk := {
  LanguageModel : Type;
  StreamTextResult : Type;
  DataStream : Type;
  openai : string -> JsValue -> Result LanguageModel;
  streamText : LanguageModel -> string -> JsValue -> Result StreamTextResult;
  toDataStreamResponse :
    StreamTextResult -> bool -> (Unknown -> string) -> Result DataStream
}.

(** [req.json()], awaited. *)
Record Request := { json : Result JsValue }.

(** What the route answers: the response the SDK built, or
    [new Response(body, { status })]. *)
Inductive Response {sdk : AiSdk} : Type :=
| Streamed (r : DataStream)
| NewResponse (body : string) (status : nat).

(** One binding of [const { key, ... } = v]: [undefined] and [null]
    cannot be destructured. *)
Definition destructure (v : JsValue) (key : string) : Result JsValue :=
  match v with
  | JUndefined =>
      Throw (TypeError ("Cannot destructure property '" +:+ key
                        +:+ "' of '(intermediate value)' as it is undefined."))
  | JNull =>
      Throw (TypeError ("Cannot destructure property '" +:+ key
                        +:+ "' of '(intermediate value)' as it is null."))
  | _ => getProp v key
  end.

(** The callback of [experimental_attachments.map(...)]; the mapped array
    is only logged. *)
Definition describeAttachment (_ : unit) (f : JsValue) : Result unit :=
  _ <- getProp f "name" ;;
  _ <- getProp f "contentType" ;;
  _ <- getProp f "size" ;;
  Ok tt.

Definition systemPrompt : string :=
  "You are a helpful, knowledgeable assistant. Please provide detailed and accurate responses.".

Section Route.
Context {sdk : AiSdk}.

(** [apiKey] is [process.env.OPENAI_API_KEY]. *)
Definition POST (apiKey : JsValue) (req : Request) : Result Response :=
  try_catch
    (body <- json req ;;
     messages <- destructure body "messages" ;;
     experimental_attachments <- destructure body "experimental_attachments" ;;
     _ <- (if truthy experimental_attachments && isArray experimental_attachments
           then for_of (elements_of experimental_attachments) describeAttachment tt
           else Ok tt) ;;
     model <- openai "gpt-4o" apiKey ;;
     result <- streamText model systemPrompt messages ;;
     response <- toDataStreamResponse result true getErrorMessage ;;
     Ok (Streamed response))
    (fun err => Ok (NewResponse ("Error: " +:+ message err) 500)).

End Route.

(** * The chat page *)

(** The parts of the page that depend on [status]: the status bar with
    its Stop button, the "Thinking..." label inside it, and the
    [disabled] attribute of the input. *)
Record Controls := {
  stopButton : bool;
  thinking : bool;
  inputDisabled : bool
}.

Definition renderControls (status : string) : Controls :=
  let statusBar := String.eqb status "submitted" || String.eqb status "streaming" in
  {| stopButton := statusBar;
     thinking := statusBar && String.eqb status "submitted";
     inputDisabled := negb (String.eqb status "ready") |}.

(** * Vocabulary of the specification *)

(** Fragments separated by single separators, in order. *)
Fixpoint separated (sep : string) (fragments : list string) : string :=
  match fragments with
  | [] => EmptyString
  | [f] => f
  | f :: rest => f +:+ sep +:+ separated sep rest
  end.

(** The text of the pages numbered from [i] on, as the specification
    words it: for each page a separator line naming the page, then the
    page's fragments separated by single spaces. *)
Fixpoint pagesFrom (i : nat) (texts : list (list TextItem)) : string :=
  match texts with
  | [] => EmptyString
  | fragments :: rest =>
      (LF +:+ "--- Page " +:+ showNat i +:+ " ---" +:+ LF
          +:+ separated " " (map str fragments) +:+ LF)
      +:+ pagesFrom (S i) rest
  end.

(** [texts] lists what pages [i], [i+1], ... of [pdf] yield. *)
Definition pagesYield (pdf : PDFDocumentProxy) (i : nat) (texts : list (list TextItem)) : Prop :=
  forall k fragments, texts !! k = Some fragments ->
    exists page textContent,
      getPage pdf (i + k) = Ok page /\
      getTextContent page = Ok textContent /\
      items textContent = fragments.

(** An attachment the loop does nothing for: one that is not a PDF, or a
    PDF without a usable [url]. *)
Definition skipped (attachment : JsValue) : Prop :=
  exists contentType,
    getProp attachment "contentType" = Ok contentType /\
    (strict_eq_string contentType "application/pdf" = false \/
     exists url, getProp attachment "url" = Ok url /\ truthy url = false).

(** The encoded payload the extractor hands to [atob]: the second
    comma-separated field of the URL, converted to a string. *)
Definition payloadOf (url encoded : string) : Prop :=
  ToString (index_of (split ","%char url) 1) = Ok encoded.

(** The two failures of the claim about isolation: the payload does not
    decode, or the decoded bytes do not open as a document. *)
Inductive ExtractionFails {host : PdfHost} (url : string) (e : JsError) : Prop :=
| decodeFails (encoded : string) :
    payloadOf url encoded ->
    atob encoded = Throw e ->
    ExtractionFails url e
| openFails (encoded binaryString : string) :
    payloadOf url encoded ->
    atob encoded = Ok binaryString ->
    getDocument (bytesOf binaryString) = Throw e ->
    ExtractionFails url e.

(** Blocks put one after the other. *)
Definition joined (blocks : list string) : string :=
  foldr String.append EmptyString blocks.

(** A list element the loop can read: its properties can be read, and
    its [name] can be interpolated into a string. *)
Definition descriptor (attachment : JsValue) : Prop :=
  exists name, getProp attachment "name" = Ok name /\ returns (ToString name).

(** The grammar a list of registrations leaves under [name], starting
    from what was there before: the last registration under the name
    wins. *)
Fixpoint lastRegistered (name : string) (l : list (string * Grammar))
    (earlier : option Grammar) : option Grammar :=
  match l with
  | [] => earlier
  | (n, g) :: rest =>
      lastRegistered name rest (if decide (n = name) then Some g else earlier)
  end.

(** The name the aliases of a list of registrations leave under
    [alias]: that of the last registration whose grammar declares it. *)
Fixpoint lastDeclaring {lib : HighlightJs} (alias : string)
    (l : list (string * Grammar)) (earlier : option string) : option string :=
  match l with
  | [] => earlier
  | (n, g) :: rest =>
      lastDeclaring alias rest
        (if bool_decide (alias ∈ toLowerCase <$> declaredAliases g) then Some n
         else earlier)
  end.

(** The name of the last registration of the grammar [g0]. *)
Fixpoint lastNameOf (g0 : Grammar) (l : list (string * Grammar))
    (earlier : option string) : option string :=
  match l with
  | [] => earlier
  | (n, g) :: rest =>
      lastNameOf g0 rest (if decide (g = g0) then Some n else earlier)
  end.

(** The grammar [g], and no other, declares [alias]. *)
Definition declaredOnlyBy (lib : HighlightJs) (alias : string) (g : Grammar) : Prop :=
  forall g', alias ∈ toLowerCase <$> declaredAliases g' <-> g' = g.

(** What the utilities rely on from highlight.js: a name registered in
    the table resolves to the grammar registered under it, rendering
    under the plain-text grammar returns, and automatic detection
    returns. *)
Definition resolvesRegistered (lib : HighlightJs) : Prop :=
  forall (table : gmap string Grammar) name g,
    table !! name = Some g -> getLanguage table name = Some g.

Definition plaintextRenders (lib : HighlightJs) : Prop :=
  forall code, returns (render Languages.plaintext code).

Definition detectionReturns (lib : HighlightJs) : Prop :=
  forall table code subset, returns (highlightAuto table code subset).


(** Whether the character occurs in the string. *)
Fixpoint contains (c : ascii) (s : string) : bool :=
  match s with
  | EmptyString => false
  | String d rest => Ascii.eqb d c || contains c rest
  end.

(** Page [i] of [pdf] cannot be read: either the page cannot be fetched
    or its text content cannot. *)
Definition pageFails (pdf : PDFDocumentProxy) (i : nat) (e : JsError) : Prop :=
  getPage pdf i = Throw e \/
  exists page, getPage pdf i = Ok page /\ getTextContent page = Throw e.

(** The ways for the extraction of a truthy [url] to end in the
    placeholder, with the error it then carries: the [url] is no string,
    its payload does not decode or open, or one of its pages cannot be
    read. *)
Inductive PlaceholderFor {host : PdfHost} : JsValue -> JsError -> Prop :=
| failsAsNoString (url : JsValue) :
    truthy url = true ->
    (forall s, url <> JStr s) ->
    PlaceholderFor url (TypeError "pdfDataUrl.split is not a function")
| failsToDecodeOrOpen (url : string) (e : JsError) :
    ExtractionFails url e ->
    PlaceholderFor (JStr url) e
| failsOnPage (url encoded binaryString : string) (pdf : PDFDocumentProxy)
    (texts : list (list TextItem)) (e : JsError) :
    payloadOf url encoded ->
    atob encoded = Ok binaryString ->
    getDocument (bytesOf binaryString) = Ok pdf ->
    length texts < numPages pdf ->
    pagesYield pdf 1 texts ->
    pageFails pdf (S (length texts)) e ->
    PlaceholderFor (JStr url) e.

(** What one attachment with a string name adds to the output, spelled
    out.  A PDF whose pages can all be read adds a header naming it, the
    pages, and two line feeds; a PDF whose extraction fails adds the same
    header and footer around the placeholder embedding the error; an
    attachment that is no PDF, or has no [url], adds nothing. *)
Inductive Contributes {host : PdfHost} (attachment : JsValue) : string -> Prop :=
| contributesPages (name url encoded binaryString : string)
    (pdf : PDFDocumentProxy) (texts : list (list TextItem)) :
    getProp attachment "contentType" = Ok (JStr "application/pdf") ->
    getProp attachment "url" = Ok (JStr url) ->
    url <> EmptyString ->
    getProp attachment "name" = Ok (JStr name) ->
    payloadOf url encoded ->
    atob encoded = Ok binaryString ->
    getDocument (bytesOf binaryString) = Ok pdf ->
    length texts = numPages pdf ->
    pagesYield pdf 1 texts ->
    Contributes attachment
      (LF +:+ LF +:+ "Content from PDF file " +:+ DQUOTE +:+ name +:+ DQUOTE +:+ ":" +:+ LF
          +:+ pagesFrom 1 texts +:+ LF +:+ LF)
| contributesPlaceholder (name : string) (url : JsValue) (e : JsError) :
    getProp attachment "contentType" = Ok (JStr "application/pdf") ->
    getProp attachment "url" = Ok url ->
    truthy url = true ->
    getProp attachment "name" = Ok (JStr name) ->
    PlaceholderFor url e ->
    Contributes attachment
      (LF +:+ LF +:+ "Content from PDF file " +:+ DQUOTE +:+ name +:+ DQUOTE +:+ ":" +:+ LF
          +:+ ("[Unable to extract PDF content. Error: " +:+ message e +:+ "]")
          +:+ LF +:+ LF)
| contributesNothing :
    skipped attachment ->
    Contributes attachment EmptyString.

(** The attachments the loop extracts: content type exactly
    [application/pdf] and a truthy [url]. *)
Definition handled (attachment : JsValue) : bool :=
  match getProp attachment "contentType", getProp attachment "url" with
  | Ok contentType, Ok url =>
      strict_eq_string contentType "application/pdf" && truthy url
  | _, _ => false
  end.

(** The exact condition for the loop body to return: the properties of
    the element can be read and, when the element is extracted, its name
    converts to a string. *)
Definition processable (attachment : JsValue) : Prop :=
  exists name,
    getProp attachment "name" = Ok name /\
    (handled attachment = true -> returns (ToString name)).

(** A further expectation on highlight.js: a detected language is one of
    the candidates it was given. *)
Definition detectsWithinSubset (lib : HighlightJs) : Prop :=
  forall table code subset l,
    highlightAuto table code subset = Ok (Some l) -> l ∈ subset.

(** The attachments field of a request body that the route can log:
    when it is a list, the properties of every element can be read. *)
Definition loggable (experimental_attachments : JsValue) : Prop :=
  truthy experimental_attachments && isArray experimental_attachments = true ->
  Forall (fun f => f <> JUndefined /\ f <> JNull) (elements_of experimental_attachments).

(** The requests the route cannot serve for a reason of their own: the
    body is no JSON, the body is [null], or the attachments list holds a
    [null] or [undefined] element.  [e] is the exception raised. *)
Inductive BadRequest (req : Request) (e : JsError) : Prop :=
| bodyUnreadable :
    json req = Throw e ->
    BadRequest req e
| bodyNullish (body : JsValue) :
    json req = Ok body ->
    destructure body "messages" = Throw e ->
    BadRequest req e
| attachmentNullish (body : JsValue) (before after : list JsValue) (f : JsValue) :
    json req = Ok body ->
    destructure body "experimental_attachments" = Ok (JArr (before ++ f :: after)) ->
    Forall (fun f => f <> JUndefined /\ f <> JNull) before ->
    getProp f "name" = Throw e ->
    BadRequest req e.

(** * A small host to run the definitions on

    The theorems below hold for every [PdfHost] and [HighlightJs].  To
    evaluate the definitions on concrete inputs this module supplies one
    of each: a strict base64 decoder, a toy document format, and a toy
    highlighter. *)

Module Demo.

(** The value of a base64 digit. *)
Definition sextet (c : ascii) : option N :=
  let n := N_of_ascii c in
  if (65 <=? n)%N && (n <=? 90)%N then Some (n - 65)%N
  else if (97 <=? n)%N && (n <=? 122)%N then Some (n - 71)%N
  else if (48 <=? n)%N && (n <=? 57)%N then Some (n + 4)%N
  else if (n =? 43)%N then Some 62%N
  else if (n =? 47)%N then Some 63%N
  else None.

Definition octet (n : N) : ascii := ascii_of_N (N.land n 255).

(** Padded base64, four digits at a time. *)
Fixpoint decode (s : string) : option string :=
  match s with
  | EmptyString => Some EmptyString
  | String a (String b (String c (String d rest))) =>
      match sextet a, sextet b with
      | Some x, Some y =>
          match sextet c, sextet d, rest with
          | Some z, Some w, _ =>
              let n := (N.shiftl x 18 + N.shiftl y 12 + N.shiftl z 6 + w)%N in
              tail ← decode rest;
              Some (String (octet (N.shiftr n 16))
                      (String (octet (N.shiftr n 8)) (String (octet n) tail)))
          | Some z, None, EmptyString =>
              if Ascii.eqb d "="%char then
                let n := (N.shiftl x 10 + N.shiftl y 4 + N.shiftr z 2)%N in
                Some (String (octet (N.shiftr n 8)) (String (octet n) EmptyString))
              else None
          | None, None, EmptyString =>
              if Ascii.eqb c "="%char && Ascii.eqb d "="%char then
                Some (String (octet (N.shiftl x 2 + N.shiftr y 4)) EmptyString)
              else None
          | _, _, _ => None
          end
      | _, _ => None
      end
  | _ => None
  end.

Definition decodeBase64 (s : string) : Result string :=
  match decode s with
  | Some binary => Ok binary
  | None => Throw (mkError "The string to be decoded is not correctly encoded.")
  end.

(** A toy document: the line [%PDF], then one line per page, the words
    of a line being its text items.  A page line starting with [!] is a
    page whose content cannot be read. *)
Definition page_of (line : string) : Result PDFPageProxy :=
  if String.prefix "!" line then Throw (mkError "Page is damaged.")
  else Ok {| getTextContent := Ok {| items := map Build_TextItem (split " "%char line) |} |}.

Definition document_of (pages : list string) : PDFDocumentProxy :=
  {| numPages := length pages;
     getPage i :=
       match i with
       | 0 => Throw (mkError "Invalid page request.")
       | S k =>
           match pages !! k with
           | Some line => page_of line
           | None => Throw (mkError "Invalid page request.")
           end
       end |}.

Definition openDocument (data : list Byte.byte) : Result PDFDocumentProxy :=
  match split "010"%char (string_of_list_byte data) with
  | header :: pages =>
      if String.eqb header "%PDF" then Ok (document_of pages)
      else Throw (mkError "Invalid PDF structure.")
  | [] => Throw (mkError "Invalid PDF structure.")
  end.

Definition host : PdfHost := {| atob := decodeBase64; getDocument := openDocument |}.

(** A toy highlighter: names resolve by exact lookup, the plain-text
    grammar returns the code unchanged, the LaTeX grammar always fails,
    every other grammar wraps the code in a span; detection looks at the
    first word. *)
Definition renderToy (g : Grammar) (code : string) : Result string :=
  match g with
  | Languages.plaintext => Ok code
  | Languages.latex => Throw (mkError "Maximum call stack size exceeded")
  | _ => Ok ("<span>" +:+ code +:+ "</span>")
  end.

Definition firstWord (table : gmap string Grammar) (code : string)
    (subset : list string) : Result (option string) :=
  if String.prefix "const " code && bool_decide ("javascript" ∈ subset)
  then Ok (Some "javascript")
  else if String.prefix "def " code && bool_decide ("python" ∈ subset)
  then Ok (Some "python")
  else Ok None.

(** The aliases the grammar modules of highlight.js 11 declare. *)
Definition aliasesOf (g : Grammar) : list string :=
  match g with
  | Languages.python => ["py"; "gyp"; "ipython"]
  | Languages.typescript => ["ts"; "tsx"; "mts"; "cts"]
  | Languages.javascript => ["js"; "jsx"; "mjs"; "cjs"]
  | Languages.java => ["jsp"]
  | Languages.bash => ["sh"; "zsh"]
  | Languages.shell => ["console"; "shellsession"]
  | Languages.json => ["jsonc"]
  | Languages.yaml => ["yml"]
  | Languages.xml =>
      ["html"; "xhtml"; "rss"; "atom"; "xjb"; "xsd"; "xsl"; "plist"; "wsf"; "svg"]
  | Languages.markdown => ["md"; "mkdown"; "mkd"]
  | Languages.csharp => ["cs"; "c#"]
  | Languages.cpp => ["cc"; "c++"; "h++"; "hpp"; "hh"; "hxx"; "cxx"]
  | Languages.go => ["golang"]
  | Languages.rust => ["rs"]
  | Languages.kotlin => ["kt"; "kts"]
  | Languages.ruby => ["rb"; "gemspec"; "podspec"; "thor"; "irb"]
  | Languages.diff => ["patch"]
  | Languages.dockerfile => ["docker"]
  | Languages.graphql => ["gql"]
  | Languages.http => ["https"]
  | Languages.ini => ["toml"]
  | Languages.latex => ["tex"]
  | Languages.objectivec => ["mm"; "objc"; "obj-c"; "obj-c++"; "objective-c++"]
  | Languages.perl => ["pl"; "pm"]
  | Languages.plaintext => ["text"; "txt"]
  | Languages.powershell => ["pwsh"; "ps"; "ps1"]
  | _ => []
  end.

#[global] Instance lib : HighlightJs :=
  {| getLanguage table name := table !! name;
     render := renderToy;
     highlightAuto := firstWord;
     declaredAliases := aliasesOf |}.

(** Sample attachments: a two-page document, bytes that are no
    document, a payload that is no base64, a document whose only page is
    damaged, a PDF entry without [url], and an image. *)
Definition attachment (name url : string) : JsValue :=
  JObj [("name", JStr name); ("contentType", JStr "application/pdf"); ("url", JStr url)].

Definition notesUrl : string := "data:application/pdf;base64,JVBERgpIZWxsbyBXb3JsZApCeWU=".
Definition garbageUrl : string := "data:application/pdf;base64,bm90IGEgcGRm".
Definition undecodableUrl : string := "data:application/pdf;base64,@@@@".
Definition damagedUrl : string := "data:application/pdf;base64,JVBERgohZGFtYWdlZA==".

Definition notes : JsValue := attachment "notes.pdf" notesUrl.
Definition garbage : JsValue := attachment "garbage.pdf" garbageUrl.
Definition undecodable : JsValue := attachment "undecodable.pdf" undecodableUrl.
Definition noUrl : JsValue :=
  JObj [("name", JStr "pending.pdf"); ("contentType", JStr "application/pdf")].
Definition image : JsValue :=
  JObj [("name", JStr "photo.png"); ("contentType", JStr "image/png");
        ("url", JStr "data:image/png;base64,iVBORw0KGgo=")].

(** An attachment whose name is an object with an own [toString]
    property. *)
Definition unprintable : JsValue :=
  JObj [("name", JObj [("toString", JNum 1)]);
        ("contentType", JStr "application/pdf"); ("url", JStr notesUrl)].

Definition notesPages : list (list TextItem) :=
  [ [ {| str := "Hello" |}; {| str := "World" |} ]; [ {| str := "Bye" |} ] ].

(** A document whose second page is damaged. *)
Definition halfReadableUrl : string :=
  "data:application/pdf;base64,JVBERgpmaXJzdCBwYWdlCiFkYW1hZ2VkCnRoaXJk".

(** A toy SDK: a model is its identifier, the stream result is the list
    of messages, and a prompt that is no list is refused. *)
Definition sdk : AiSdk :=
  {| LanguageModel := string;
     StreamTextResult := list JsValue;
     DataStream := list JsValue;
     openai modelId apiKey := Ok modelId;
     streamText model system messages :=
       if isArray messages then Ok (elements_of messages)
       else Throw (mkError "Invalid prompt: messages must be an array");
     toDataStreamResponse result sendUsage getErrorMessage := Ok result |}.

Definition hello : JsValue :=
  JObj [("role", JStr "user"); ("content", JStr "Hello")].

Definition requestOf (body : JsValue) : Request := {| json := Ok body |}.

End Demo.

(** * Properties *)

(** ** Strings and loops *)

Lemma append_nil_l (s : string) : EmptyString +:+ s = s.
Proof. reflexivity. Qed.

Lemma append_cons (c : ascii) (s t : string) : String c s +:+ t = String c (s +:+ t).
Proof. reflexivity. Qed.

Lemma append_nil_r (s : string) : s +:+ EmptyString = s.
Proof. induction s as [|c s IH]; [reflexivity|]. by rewrite append_cons, IH. Qed.

Lemma append_assoc (s t u : string) : (s +:+ t) +:+ u = s +:+ (t +:+ u).
Proof. induction s as [|c s IH]; [reflexivity|]. by rewrite !append_cons, IH. Qed.

Lemma append_inj_l (s t u : string) : s +:+ t = s +:+ u -> t = u.
Proof.
  induction s as [|c s IH]; [done|].
  rewrite !append_cons. intros [= H]. by apply IH.
Qed.

Lemma bind_Ok {A B} (c : Result A) (k : A -> Result B) (a : A) :
  c = Ok a -> bind c k = k a.
Proof. by intros ->. Qed.

Lemma bind_Throw {A B} (c : Result A) (k : A -> Result B) (e : JsError) :
  c = Throw e -> bind c k = Throw e.
Proof. by intros ->. Qed.

Lemma for_of_app {A S} (l1 l2 : list A) (body : S -> A -> Result S) (s : S) :
  for_of (l1 ++ l2) body s = (s' <- for_of l1 body s ;; for_of l2 body s').
Proof.
  revert s. induction l1 as [|x l1 IH]; intros s; [reflexivity|].
  simpl. destruct (body s x) as [s'|e]; simpl; [apply IH | reflexivity].
Qed.

(** A loop whose body only ever appends to the accumulator can be run
    from the empty accumulator. *)
Lemma for_of_appending {A} (l : list A) (body : string -> A -> Result string) :
  (forall acc x, body acc x = (c <- body EmptyString x ;; Ok (acc +:+ c))) ->
  forall acc, for_of l body acc = (c <- for_of l body EmptyString ;; Ok (acc +:+ c)).
Proof.
  intros Hbody. induction l as [|x l IH]; intros acc; simpl.
  - by rewrite append_nil_r.
  - rewrite (Hbody acc x). destruct (body EmptyString x) as [c|e]; simpl; [|done].
    rewrite (IH (acc +:+ c)), (IH c).
    destruct (for_of l body EmptyString) as [d|e]; simpl; [|done].
    by rewrite append_assoc.
Qed.

(** ** [join] against the reading of the specification *)

Lemma join_from_later (sep R : string) (k : nat) (l : list string) :
  join_from sep R (S k) l = R +:+ String.concat EmptyString (map (String.append sep) l).
Proof.
  revert R k. induction l as [|x l IH]; intros R k; simpl.
  - by rewrite append_nil_r.
  - rewrite IH. destruct l as [|y l]; simpl.
    + by rewrite !append_assoc, !append_nil_r.
    + by rewrite !append_assoc.
Qed.

Lemma separated_cons (sep f : string) (rest : list string) :
  separated sep (f :: rest) = f +:+ String.concat EmptyString (map (String.append sep) rest).
Proof.
  revert f. induction rest as [|g rest IH]; intros f.
  - simpl. by rewrite append_nil_r.
  - change (separated sep (f :: g :: rest)) with (f +:+ sep +:+ separated sep (g :: rest)).
    rewrite IH. destruct rest as [|h rest]; simpl.
    + by rewrite !append_nil_r.
    + by rewrite !append_assoc.
Qed.

Lemma join_separated (sep : string) (l : list string) : join sep l = separated sep l.
Proof.
  destruct l as [|x l]; [reflexivity|].
  unfold join. simpl join_from. rewrite join_from_later, separated_cons.
  by rewrite append_nil_l.
Qed.

(** ** The extractor *)

Section ExtractorFacts.
Context {host : PdfHost}.

(** Reading one property succeeds exactly when reading any other does:
    only [undefined] and [null] make the read throw. *)
Lemma getProp_any (v w : JsValue) (key key' : string) :
  getProp v key = Ok w -> exists w', getProp v key' = Ok w'.
Proof. destruct v; simpl; intros H; try discriminate; eauto. Qed.

(** Whatever happens inside the [try] block, [extractTextFromPDF] hands
    back a string. *)
Lemma extractTextFromPDF_returns (pdfDataUrl : JsValue) :
  returns (extractTextFromPDF pdfDataUrl).
Proof.
  unfold extractTextFromPDF, try_catch, returns.
  match goal with |- context [match ?c with _ => _ end] => destruct c end; eauto.
Qed.

Lemma extractTextFromPDF_failure (pdfDataUrl : JsValue) (e : JsError) :
  (parts <- callSplit pdfDataUrl ;;
   encoded <- ToString (index_of parts 1) ;;
   binaryString <- atob encoded ;;
   pdf <- getDocument (bytesOf binaryString) ;;
   for_of (seq 1 (numPages pdf)) (extractPage pdf) EmptyString) = Throw e ->
  extractTextFromPDF pdfDataUrl = Ok (extractionFailure e).
Proof. unfold extractTextFromPDF. by intros ->. Qed.


Lemma pagesYield_tail pdf i fragments texts :
  pagesYield pdf i (fragments :: texts) -> pagesYield pdf (S i) texts.
Proof.
  intros H k fs Hk. destruct (H (S k) fs Hk) as (page & tc & Hp & Ht & Hi).
  exists page, tc. by rewrite <- Nat.add_succ_comm in Hp.
Qed.

Lemma page_loop (pdf : PDFDocumentProxy) (texts : list (list TextItem)) :
  forall i fullText,
    pagesYield pdf i texts ->
    for_of (seq i (length texts)) (extractPage pdf) fullText
    = Ok (fullText +:+ pagesFrom i texts).
Proof.
  induction texts as [|fragments texts IH]; intros i fullText Hy; simpl.
  - by rewrite append_nil_r.
  - destruct (Hy 0 fragments eq_refl) as (page & tc & Hp & Ht & Hi).
    rewrite Nat.add_0_r in Hp.
    unfold extractPage at 1. rewrite Hp. simpl. rewrite Ht. simpl.
    rewrite IH by (by eapply pagesYield_tail).
    unfold pageBlock. rewrite join_separated, Hi.
    by rewrite !append_assoc.
Qed.

(** The attachment loop only ever appends. *)
Lemma processAttachment_appends (extractedContent : string) (attachment : JsValue) :
  processAttachment extractedContent attachment
  = (c <- processAttachment EmptyString attachment ;; Ok (extractedContent +:+ c)).
Proof.
  unfold processAttachment.
  destruct (getProp attachment "name") as [n|e]; simpl; [|done].
  destruct (getProp attachment "contentType") as [ct|e]; simpl; [|done].
  destruct (strict_eq_string ct "application/pdf"); simpl.
  2: by rewrite append_nil_r.
  destruct (getProp attachment "url") as [url|e]; simpl; [|done].
  destruct (truthy url); simpl.
  2: by rewrite append_nil_r.
  destruct (extractTextFromPDF url) as [pdfText|e]; simpl; [|done].
  destruct (ToString n) as [name|e]; simpl; [|done].
  by rewrite append_nil_l.
Qed.

Lemma processAttachments_array (l : list JsValue) :
  processAttachments (JArr l) = for_of l processAttachment EmptyString.
Proof. by destruct l. Qed.

Lemma processAttachments_app (l1 l2 : list JsValue) :
  processAttachments (JArr (l1 ++ l2))
  = (P <- processAttachments (JArr l1) ;;
     Q <- processAttachments (JArr l2) ;;
     Ok (P +:+ Q)).
Proof.
  rewrite !processAttachments_array, for_of_app.
  destruct (for_of l1 processAttachment EmptyString) as [P|e]; simpl; [|done].
  apply for_of_appending. intros acc x. apply processAttachment_appends.
Qed.


Lemma processAttachment_skipped (extractedContent : string) (attachment : JsValue) :
  skipped attachment ->
  processAttachment extractedContent attachment = Ok extractedContent.
Proof.
  intros (ct & Hct & Hskip). unfold processAttachment.
  destruct (getProp_any _ _ _ "name" Hct) as [n ->]. rewrite Hct. simpl.
  destruct Hskip as [-> | (url & -> & Hurl)]; [done|].
  simpl. rewrite Hurl. by destruct (strict_eq_string ct "application/pdf").
Qed.

Lemma processAttachments_skip (before after : list JsValue) (attachment : JsValue) :
  skipped attachment ->
  processAttachments (JArr (before ++ attachment :: after))
  = processAttachments (JArr (before ++ after)).
Proof.
  intros Hskip. rewrite !processAttachments_array, !for_of_app. simpl.
  destruct (for_of before processAttachment EmptyString) as [P|e]; simpl; [|done].
  by rewrite processAttachment_skipped.
Qed.

End ExtractorFacts.

(** C2: for an input that is [undefined] or [null], that is not an
    array, or that is the empty array, [processAttachments] returns the
    empty string. *)
Theorem processAttachments_nothing_to_do (host : PdfHost) (attachments : JsValue) :
  attachments = JUndefined \/ attachments = JNull \/
  isArray attachments = false \/ attachments = JArr [] ->
  processAttachments attachments = Ok EmptyString.
Proof.
  intros [-> | [-> | [H | ->]]]; try reflexivity.
  unfold processAttachments. rewrite H. simpl.
  by rewrite orb_true_r.
Qed.

Lemma processAttachments_nothing_to_do_witness :
  @processAttachments Demo.host (JStr "report.pdf") = Ok EmptyString
  /\ @processAttachments Demo.host (JArr []) = Ok EmptyString
  /\ @processAttachments Demo.host JUndefined = Ok EmptyString.
Proof.
  split; [|split]; apply processAttachments_nothing_to_do.
  - right; right; left; reflexivity.
  - right; right; right; reflexivity.
  - left; reflexivity.
Defined.

Section Contributions.
Context {host : PdfHost}.

Lemma extraction_fails (url : string) (e : JsError) :
  ExtractionFails url e ->
  extractTextFromPDF (JStr url)
  = Ok ("[Unable to extract PDF content. Error: " +:+ message e +:+ "]").
Proof.
  intros Hfail. apply extractTextFromPDF_failure. simpl.
  destruct Hfail as [encoded Hp Hd | encoded binaryString Hp Hd Ho];
    unfold payloadOf in Hp; rewrite Hp; simpl; rewrite Hd; simpl; [done|].
  by rewrite Ho.
Qed.

Lemma extraction_succeeds (url encoded binaryString : string)
    (pdf : PDFDocumentProxy) (texts : list (list TextItem)) :
  payloadOf url encoded ->
  atob encoded = Ok binaryString ->
  getDocument (bytesOf binaryString) = Ok pdf ->
  length texts = numPages pdf ->
  pagesYield pdf 1 texts ->
  extractTextFromPDF (JStr url) = Ok (pagesFrom 1 texts).
Proof.
  intros Hp Hd Ho Hlen Hy. unfold extractTextFromPDF. simpl.
  unfold payloadOf in Hp. rewrite Hp. simpl. rewrite Hd. simpl. rewrite Ho. simpl.
  rewrite <- Hlen, page_loop by done. by rewrite append_nil_l.
Qed.

Lemma extraction_page_fails (url encoded binaryString : string)
    (pdf : PDFDocumentProxy) (texts : list (list TextItem)) (e : JsError) :
  payloadOf url encoded ->
  atob encoded = Ok binaryString ->
  getDocument (bytesOf binaryString) = Ok pdf ->
  length texts < numPages pdf ->
  pagesYield pdf 1 texts ->
  pageFails pdf (S (length texts)) e ->
  extractTextFromPDF (JStr url)
  = Ok ("[Unable to extract PDF content. Error: " +:+ message e +:+ "]").
Proof.
  intros Hp Hd Ho Hlt Hy Hfail. apply extractTextFromPDF_failure. simpl.
  unfold payloadOf in Hp. rewrite Hp. simpl. rewrite Hd. simpl. rewrite Ho. simpl.
  replace (numPages pdf) with (length texts + S (numPages pdf - S (length texts))) by lia.
  rewrite seq_app, for_of_app, page_loop by done. simpl.
  unfold extractPage at 1.
  destruct Hfail as [-> | (page & -> & Ht)]; [done|]. simpl. by rewrite Ht.
Qed.

Lemma placeholder_for (url : JsValue) (e : JsError) :
  PlaceholderFor url e ->
  extractTextFromPDF url
  = Ok ("[Unable to extract PDF content. Error: " +:+ message e +:+ "]").
Proof.
  intros [v Ht Hs | u e' Hfail | u encoded binaryString pdf texts e' Hp Hd Ho Hlt Hy Hfail].
  - destruct v; try done. by destruct (Hs s).
  - by apply extraction_fails.
  - by eapply extraction_page_fails.
Qed.

(** The block of one PDF attachment with a string name, given what the
    extraction of its [url] returns. *)
Lemma single_attachment (attachment url : JsValue) (name pdfText : string) :
  getProp attachment "contentType" = Ok (JStr "application/pdf") ->
  getProp attachment "url" = Ok url ->
  truthy url = true ->
  getProp attachment "name" = Ok (JStr name) ->
  extractTextFromPDF url = Ok pdfText ->
  processAttachments (JArr [attachment])
  = Ok (LF +:+ LF +:+ "Content from PDF file " +:+ DQUOTE +:+ name +:+ DQUOTE +:+ ":" +:+ LF
           +:+ pdfText +:+ LF +:+ LF).
Proof.
  intros Hct Hurl Ht Hname Hx.
  rewrite processAttachments_array. simpl.
  unfold processAttachment. rewrite Hname, Hct. simpl. rewrite Hurl. simpl.
  rewrite Ht, Hx. simpl. by rewrite append_nil_l.
Qed.

Lemma truthy_string (url : string) : url <> EmptyString -> truthy (JStr url) = true.
Proof. intros Hne. simpl. by destruct (String.eqb_spec url EmptyString). Qed.

Lemma contributes_single (attachment : JsValue) (block : string) :
  Contributes attachment block ->
  processAttachments (JArr [attachment]) = Ok block.
Proof.
  intros [name url encoded binaryString pdf texts Hct Hurl Hne Hname Hp Hd Ho Hlen Hy
         | name url e Hct Hurl Ht Hname Hfail
         | Hskip].
  - apply (single_attachment attachment (JStr url) name (pagesFrom 1 texts)
             Hct Hurl (truthy_string url Hne) Hname).
    exact (extraction_succeeds url encoded binaryString pdf texts Hp Hd Ho Hlen Hy).
  - apply (single_attachment attachment url name _ Hct Hurl Ht Hname).
    exact (placeholder_for url e Hfail).
  - rewrite processAttachments_array. simpl.
    by rewrite processAttachment_skipped.
Qed.

Lemma contributes_all (l : list JsValue) (blocks : list string) :
  Forall2 Contributes l blocks ->
  processAttachments (JArr l) = Ok (joined blocks).
Proof.
  induction 1 as [|a block l blocks Ha _ IH]; [reflexivity|].
  rewrite (processAttachments_app [a] l), (contributes_single a block Ha), IH.
  reflexivity.
Qed.

End Contributions.

(** C1: when one attachment of the list has a data URL whose payload
    does not decode, or whose bytes do not open as a document,
    [extractTextFromPDF] returns for it the bracketed placeholder that
    embeds the message of the error, and [processAttachments] returns, in
    order, what every attachment before it contributes, the block of the
    failed attachment (its header, the placeholder, two line feeds), and
    what every attachment after it contributes. *)
Theorem failed_attachment_is_isolated (host : PdfHost)
    (before after : list JsValue) (bad : JsValue) (url name : string) (e : JsError)
    (blocksBefore blocksAfter : list string) :
  getProp bad "contentType" = Ok (JStr "application/pdf") ->
  getProp bad "url" = Ok (JStr url) ->
  url <> EmptyString ->
  getProp bad "name" = Ok (JStr name) ->
  ExtractionFails url e ->
  Forall2 Contributes before blocksBefore ->
  Forall2 Contributes after blocksAfter ->
  extractTextFromPDF (JStr url)
  = Ok ("[Unable to extract PDF content. Error: " +:+ message e +:+ "]")
  /\ processAttachments (JArr (before ++ bad :: after))
     = Ok (joined blocksBefore
           +:+ (LF +:+ LF +:+ "Content from PDF file " +:+ DQUOTE +:+ name +:+ DQUOTE
                +:+ ":" +:+ LF
                +:+ ("[Unable to extract PDF content. Error: " +:+ message e +:+ "]")
                +:+ LF +:+ LF)
           +:+ joined blocksAfter).
Proof.
  intros Hct Hurl Hne Hname Hfail Hbefore Hafter.
  split; [by apply extraction_fails|].
  rewrite processAttachments_app, (contributes_all before blocksBefore Hbefore). simpl.
  rewrite (processAttachments_app [bad] after), (contributes_all after blocksAfter Hafter).
  rewrite (contributes_single bad _
             (contributesPlaceholder bad name (JStr url) e Hct Hurl
                (truthy_string url Hne) Hname (failsToDecodeOrOpen url e Hfail))).
  reflexivity.
Qed.

Lemma failed_attachment_is_isolated_witness :
  let header name :=
    LF +:+ LF +:+ "Content from PDF file " +:+ DQUOTE +:+ name +:+ DQUOTE +:+ ":" +:+ LF in
  @extractTextFromPDF Demo.host (JStr Demo.garbageUrl)
  = Ok "[Unable to extract PDF content. Error: Invalid PDF structure.]"
  /\ @processAttachments Demo.host
       (JArr ([Demo.notes; Demo.image] ++ Demo.garbage
                :: [Demo.undecodable; Demo.attachment "half.pdf" Demo.halfReadableUrl]))
     = Ok (joined [ header "notes.pdf" +:+ pagesFrom 1 Demo.notesPages +:+ LF +:+ LF;
                    EmptyString ]
           +:+ (header "garbage.pdf"
                +:+ "[Unable to extract PDF content. Error: Invalid PDF structure.]"
                +:+ LF +:+ LF)
           +:+ joined [ header "undecodable.pdf"
                        +:+ ("[Unable to extract PDF content. Error: "
                             +:+ "The string to be decoded is not correctly encoded."
                             +:+ "]")
                        +:+ LF +:+ LF;
                        header "half.pdf"
                        +:+ "[Unable to extract PDF content. Error: Page is damaged.]"
                        +:+ LF +:+ LF ]).
Proof.
  intros header.
  apply (failed_attachment_is_isolated Demo.host [Demo.notes; Demo.image]
           [Demo.undecodable; Demo.attachment "half.pdf" Demo.halfReadableUrl]
           Demo.garbage Demo.garbageUrl "garbage.pdf"
           (mkError "Invalid PDF structure.")).
  - reflexivity.
  - reflexivity.
  - discriminate.
  - reflexivity.
  - apply (@openFails Demo.host _ _ "bm90IGEgcGRm" "not a pdf"); reflexivity.
  - constructor; [|constructor; [|constructor]].
    + apply (@contributesPages Demo.host Demo.notes "notes.pdf" Demo.notesUrl
               "JVBERgpIZWxsbyBXb3JsZApCeWU="
               ("%PDF" +:+ LF +:+ "Hello World" +:+ LF +:+ "Bye")
               (Demo.document_of ["Hello World"; "Bye"]) Demo.notesPages);
        try reflexivity; try discriminate.
      intros [|[|k]] fragments Hk; simplify_eq/=; eexists _, _; repeat split; reflexivity.
    + apply contributesNothing. eexists. split; [reflexivity | by left].
  - constructor; [|constructor; [|constructor]].
    + apply (@contributesPlaceholder Demo.host Demo.undecodable "undecodable.pdf"
               (JStr Demo.undecodableUrl)
               (mkError "The string to be decoded is not correctly encoded."));
        try reflexivity.
      apply failsToDecodeOrOpen.
      apply (@decodeFails Demo.host _ _ "@@@@"); reflexivity.
    + apply (@contributesPlaceholder Demo.host _ "half.pdf"
               (JStr Demo.halfReadableUrl) (mkError "Page is damaged."));
        try reflexivity.
      apply (@failsOnPage Demo.host Demo.halfReadableUrl
               "JVBERgpmaXJzdCBwYWdlCiFkYW1hZ2VkCnRoaXJk"
               ("%PDF" +:+ LF +:+ "first page" +:+ LF +:+ "!damaged" +:+ LF +:+ "third")
               (Demo.document_of ["first page"; "!damaged"; "third"])
               [ [ {| str := "first" |}; {| str := "page" |} ] ]).
      * reflexivity.
      * reflexivity.
      * reflexivity.
      * simpl. lia.
      * intros [|k] fragments Hk; simplify_eq/=. eexists _, _. repeat split; reflexivity.
      * left. reflexivity.
Defined.

(** C3, as stated, fails: a document can open and report one page while
    the page itself cannot be read; the output is then the placeholder
    and holds no page separator. *)
Lemma opened_document_with_unreadable_page :
  (exists binaryString pdf,
      payloadOf Demo.damagedUrl "JVBERgohZGFtYWdlZA==" /\
      @atob Demo.host "JVBERgohZGFtYWdlZA==" = Ok binaryString /\
      @getDocument Demo.host (bytesOf binaryString) = Ok pdf /\
      numPages pdf = 1)
  /\ @extractTextFromPDF Demo.host (JStr Demo.damagedUrl)
     = Ok "[Unable to extract PDF content. Error: Page is damaged.]"
  /\ forall texts : list (list TextItem),
       length texts = 1 ->
       @extractTextFromPDF Demo.host (JStr Demo.damagedUrl) <> Ok (pagesFrom 1 texts).
Proof.
  split; [|split].
  - eexists _, _. repeat split; reflexivity.
  - reflexivity.
  - intros [|fragments [|? ?]] Hlen; discriminate.
Qed.

(** C3, amended: for a PDF that opens with [numPages] pages and whose
    every page yields its text content, the output is, for the pages 1 to
    [numPages] in ascending order, the separator line naming the page
    followed by the page's fragments in source order, separated by
    single spaces. *)
Theorem pages_in_ascending_order (host : PdfHost)
    (url encoded binaryString : string) (pdf : PDFDocumentProxy)
    (texts : list (list TextItem)) :
  payloadOf url encoded ->
  atob encoded = Ok binaryString ->
  getDocument (bytesOf binaryString) = Ok pdf ->
  length texts = numPages pdf ->
  pagesYield pdf 1 texts ->
  extractTextFromPDF (JStr url) = Ok (pagesFrom 1 texts).
Proof.
  intros Hp Hd Ho Hlen Hy. unfold extractTextFromPDF. simpl.
  unfold payloadOf in Hp. rewrite Hp. simpl. rewrite Hd. simpl. rewrite Ho. simpl.
  rewrite <- Hlen, page_loop by done. by rewrite append_nil_l.
Qed.

Lemma pages_in_ascending_order_witness :
  @extractTextFromPDF Demo.host (JStr Demo.notesUrl) = Ok (pagesFrom 1 Demo.notesPages).
Proof.
  apply (pages_in_ascending_order Demo.host Demo.notesUrl
           "JVBERgpIZWxsbyBXb3JsZApCeWU=" ("%PDF" +:+ LF +:+ "Hello World" +:+ LF +:+ "Bye")
           (Demo.document_of ["Hello World"; "Bye"])).
  - reflexivity.
  - reflexivity.
  - reflexivity.
  - reflexivity.
  - intros [|[|k]] fragments Hk; simplify_eq/=; eexists _, _; repeat split; reflexivity.
Defined.

(** C10: an attachment whose content type is exactly [application/pdf]
    and whose [url] is missing, empty or otherwise falsy adds nothing to
    the output; the list gives the same result as without it, and the same
    result as with an attachment of another content type in its place. *)
Theorem pdf_without_url_is_skipped (host : PdfHost)
    (before after : list JsValue) (attachment url other contentType : JsValue) :
  getProp attachment "contentType" = Ok (JStr "application/pdf") ->
  getProp attachment "url" = Ok url ->
  truthy url = false ->
  getProp other "contentType" = Ok contentType ->
  strict_eq_string contentType "application/pdf" = false ->
  processAttachments (JArr (before ++ attachment :: after))
  = processAttachments (JArr (before ++ after))
  /\ processAttachments (JArr (before ++ attachment :: after))
     = processAttachments (JArr (before ++ other :: after)).
Proof.
  intros Hct Hurl Hfalsy Hother Hne.
  assert (skipped attachment) by (eexists; split; [exact Hct | right; eauto]).
  assert (skipped other) by (eexists; split; [exact Hother | left; done]).
  by rewrite !processAttachments_skip.
Qed.

Lemma pdf_without_url_is_skipped_witness :
  @processAttachments Demo.host (JArr ([Demo.notes] ++ Demo.noUrl :: [Demo.notes]))
  = @processAttachments Demo.host (JArr ([Demo.notes] ++ [Demo.notes]))
  /\ @processAttachments Demo.host (JArr ([Demo.notes] ++ Demo.noUrl :: [Demo.notes]))
     = @processAttachments Demo.host (JArr ([Demo.notes] ++ Demo.image :: [Demo.notes])).
Proof.
  apply (pdf_without_url_is_skipped Demo.host [Demo.notes] [Demo.notes]
           Demo.noUrl JUndefined Demo.image (JStr "image/png")); reflexivity.
Defined.

(** ** The language table *)

Section LanguageTable.
Context {lib : HighlightJs}.

Lemma lookup_registerLanguage (languageName name : string) (g : Grammar) (h : Hljs) :
  languages (registerLanguage languageName g h) !! name
  = if decide (languageName = name) then Some g else languages h !! name.
Proof. unfold registerLanguage. simpl. apply lookup_insert. Qed.

Lemma lookup_registered (l : list (string * Grammar)) (h : Hljs) (name : string) :
  languages (foldl (fun h entry => registerLanguage entry.1 entry.2 h) h l) !! name
  = lastRegistered name l (languages h !! name).
Proof.
  revert h. induction l as [|[n g] l IH]; intros h; [reflexivity|].
  simpl. by rewrite IH, lookup_registerLanguage.
Qed.

(** The table of the loaded module, read off the list of registrations. *)
Lemma hljs_lookup (name : string) :
  languages hljs !! name = lastRegistered name registrations None.
Proof. unfold hljs. by rewrite lookup_registered. Qed.

Lemma plaintext_registered : languages hljs !! "plaintext" = Some Languages.plaintext.
Proof. by rewrite hljs_lookup. Qed.

Lemma detectCandidates_registered :
  Forall (fun name => is_Some (languages hljs !! name)) detectCandidates.
Proof. repeat constructor; rewrite hljs_lookup; by eexists. Qed.

Lemma lookup_registerAliases (aliasList : list string) (languageName alias : string)
    (table : gmap string string) :
  registerAliases aliasList languageName table !! alias
  = if bool_decide (alias ∈ toLowerCase <$> aliasList) then Some languageName
    else table !! alias.
Proof.
  unfold registerAliases. revert table.
  induction aliasList as [|a aliasList IH]; intros table; simpl; [done|].
  rewrite IH, lookup_insert.
  destruct (decide (toLowerCase a = alias)) as [<-|Hne].
  - rewrite (bool_decide_eq_true_2 (_ ∈ _ :: _)) by (by left).
    by case_bool_decide.
  - case_bool_decide as Hin.
    + by rewrite bool_decide_eq_true_2 by (by right).
    + rewrite bool_decide_eq_false_2; [done|].
      by intros [?|?]%elem_of_cons.
Qed.

Lemma aliases_registered (l : list (string * Grammar)) (h : Hljs) (alias : string) :
  aliases (foldl (fun h entry => registerLanguage entry.1 entry.2 h) h l) !! alias
  = lastDeclaring alias l (aliases h !! alias).
Proof.
  revert h. induction l as [|[n g] l IH]; intros h; [reflexivity|].
  simpl. rewrite IH. unfold registerLanguage. simpl.
  by rewrite lookup_registerAliases.
Qed.

(** The aliases of the loaded module, read off the list of
    registrations. *)
Lemma hljs_aliases (alias : string) :
  aliases hljs !! alias = lastDeclaring alias registrations None.
Proof. unfold hljs. by rewrite aliases_registered. Qed.

Lemma lastDeclaring_only (alias : string) (g0 : Grammar)
    (l : list (string * Grammar)) (earlier : option string) :
  declaredOnlyBy lib alias g0 ->
  lastDeclaring alias l earlier = lastNameOf g0 l earlier.
Proof.
  intros Honly. revert earlier.
  induction l as [|[n g] l IH]; intros earlier; simpl; [done|].
  rewrite IH. f_equal.
  destruct (decide (g = g0)) as [->|Hne].
  - by rewrite bool_decide_eq_true_2 by (by apply Honly).
  - rewrite bool_decide_eq_false_2; [done|]. by intros ?%Honly.
Qed.

(** A name the module registers resolves to its grammar, whatever the
    grammars declare as aliases. *)
Lemma hljs_getLanguage_registered (name : string) (g : Grammar) :
  toLowerCase name = name ->
  languages hljs !! name = Some g ->
  hljs_getLanguage hljs name = Some g.
Proof. intros Hlow Hg. unfold hljs_getLanguage. by rewrite Hlow, Hg. Qed.

(** A name the module does not register resolves through the alias
    table. *)
Lemma hljs_getLanguage_alias (name languageName : string) (owner g : Grammar) :
  toLowerCase name = name ->
  languages hljs !! name = None ->
  declaredOnlyBy lib name owner ->
  lastNameOf owner registrations None = Some languageName ->
  languages hljs !! languageName = Some g ->
  hljs_getLanguage hljs name = Some g.
Proof.
  intros Hlow Hnone Honly Hlast Hg. unfold hljs_getLanguage.
  rewrite Hlow, Hnone, hljs_aliases, (lastDeclaring_only name owner) by done.
  by rewrite Hlast.
Qed.

End LanguageTable.

Lemma demo_declaredOnlyBy_ts : declaredOnlyBy Demo.lib "ts" Languages.typescript.
Proof.
  intros g'. rewrite <- (bool_decide_eq_true (_ ∈ _)), <- (bool_decide_eq_true (g' = _)).
  by destruct g'.
Qed.

Lemma demo_declaredOnlyBy_py : declaredOnlyBy Demo.lib "py" Languages.python.
Proof.
  intros g'. rewrite <- (bool_decide_eq_true (_ ∈ _)), <- (bool_decide_eq_true (g' = _)).
  by destruct g'.
Qed.

(** C7, as stated, fails: [py] is aliased.  The module registers Python
    under its full name only, but [hljs.registerLanguage] also registers
    the aliases the grammar declares, and the Python grammar of
    highlight.js declares [py]. *)
Lemma py_is_aliased :
  "py" ∈ @declaredAliases Demo.lib Languages.python
  /\ hljs_getLanguage (@hljs Demo.lib) "py" = Some Languages.python.
Proof. split; [by left | vm_compute; reflexivity]. Qed.

(** C7, amended: the registry built when the module is loaded resolves
    the aliases [js], [sh], [yml], [md], [cs], [c++], [rs], [kt], [rb],
    [docker], [gql], [tex], [objc], [pl], [text] and [ps] to the stated
    grammars, each through a registration of the module.  The module
    registers neither [ts] nor [py]; [ts] resolves to TypeScript and [py]
    to Python when the TypeScript, respectively the Python grammar (and
    no other) declares that alias itself. *)
Theorem registered_aliases (lib : HighlightJs) :
  hljs_getLanguage hljs "js" = Some Languages.javascript
  /\ hljs_getLanguage hljs "sh" = Some Languages.shell
  /\ hljs_getLanguage hljs "yml" = Some Languages.yaml
  /\ hljs_getLanguage hljs "md" = Some Languages.markdown
  /\ hljs_getLanguage hljs "cs" = Some Languages.csharp
  /\ hljs_getLanguage hljs "c++" = Some Languages.cpp
  /\ hljs_getLanguage hljs "rs" = Some Languages.rust
  /\ hljs_getLanguage hljs "kt" = Some Languages.kotlin
  /\ hljs_getLanguage hljs "rb" = Some Languages.ruby
  /\ hljs_getLanguage hljs "docker" = Some Languages.dockerfile
  /\ hljs_getLanguage hljs "gql" = Some Languages.graphql
  /\ hljs_getLanguage hljs "tex" = Some Languages.latex
  /\ hljs_getLanguage hljs "objc" = Some Languages.objectivec
  /\ hljs_getLanguage hljs "pl" = Some Languages.perl
  /\ hljs_getLanguage hljs "text" = Some Languages.plaintext
  /\ hljs_getLanguage hljs "ps" = Some Languages.powershell
  /\ ("ts" ∉ registrations.*1)
  /\ ("py" ∉ registrations.*1)
  /\ (declaredOnlyBy lib "ts" Languages.typescript ->
      hljs_getLanguage hljs "ts" = Some Languages.typescript)
  /\ (declaredOnlyBy lib "py" Languages.python ->
      hljs_getLanguage hljs "py" = Some Languages.python).
Proof.
  repeat match goal with
         | |- hljs_getLanguage hljs _ = _ /\ _ =>
             split; [apply hljs_getLanguage_registered;
                       [reflexivity | by rewrite hljs_lookup] |]
         end.
  split; [by apply (bool_decide_unpack _)|].
  split; [by apply (bool_decide_unpack _)|].
  split; intros Honly.
  - apply (hljs_getLanguage_alias "ts" "typescript" Languages.typescript);
      [reflexivity | by rewrite hljs_lookup | done | reflexivity | by rewrite hljs_lookup].
  - apply (hljs_getLanguage_alias "py" "python" Languages.python);
      [reflexivity | by rewrite hljs_lookup | done | reflexivity | by rewrite hljs_lookup].
Qed.

Lemma registered_aliases_witness :
  hljs_getLanguage (@hljs Demo.lib) "js" = Some Languages.javascript
  /\ hljs_getLanguage (@hljs Demo.lib) "ts" = Some Languages.typescript
  /\ hljs_getLanguage (@hljs Demo.lib) "py" = Some Languages.python.
Proof.
  destruct (registered_aliases Demo.lib) as (Hjs & H).
  do 17 (destruct H as (_ & H)). destruct H as (Hts & Hpy).
  split; [exact Hjs | split].
  - exact (Hts demo_declaredOnlyBy_ts).
  - exact (Hpy demo_declaredOnlyBy_py).
Defined.

(** ** Resolution and fallback *)

Section HighlightFacts.
Context {lib : HighlightJs}.

(** What [highlightCode] computes once the language is resolved. *)
Lemma highlightCode_resolved (code : string) (language : option string)
    (resolved : string) (h : Hljs) :
  resolveLanguage code language h = (Ok resolved, h) ->
  highlightCode code language h
  = try_catchM (hljs_highlight code resolved)
               (fun _ => hljs_highlight code "plaintext") h.
Proof. intros H. unfold highlightCode, bindM. by rewrite H. Qed.

Lemma highlight_plaintext (code : string) :
  resolvesRegistered lib ->
  hljs_highlight code "plaintext" hljs = (render Languages.plaintext code, hljs).
Proof.
  intros Hres. unfold hljs_highlight.
  by rewrite (Hres _ _ _ plaintext_registered).
Qed.

(** The fallback: when the first attempt throws, the result is the
    plain-text rendering. *)
Lemma highlightCode_fallback (code : string) (language : option string) (resolved : string) :
  resolvesRegistered lib ->
  resolveLanguage code language hljs = (Ok resolved, hljs) ->
  (getLanguage (languages hljs) resolved = None \/
   exists g e, getLanguage (languages hljs) resolved = Some g /\ render g code = Throw e) ->
  highlightCode code language hljs = (render Languages.plaintext code, hljs).
Proof.
  intros Hres Hr Hfail. rewrite (highlightCode_resolved _ _ _ _ Hr).
  unfold try_catchM.
  assert (exists e, hljs_highlight code resolved hljs = (Throw e, hljs)) as [e ->].
  { unfold hljs_highlight. destruct Hfail as [-> | (g & e & -> & ->)]; eauto. }
  by apply highlight_plaintext.
Qed.

Lemma detectLanguage_returns (code : string) (h : Hljs) :
  detectionReturns lib -> exists id, detectLanguage code h = (Ok id, h).
Proof.
  intros Hdet. unfold detectLanguage, bindM, hljs_highlightAuto.
  destruct (Hdet (languages h) code detectCandidates) as [d ->]. eauto.
Qed.

Lemma resolveLanguage_returns (code : string) (language : option string) (h : Hljs) :
  detectionReturns lib -> exists resolved, resolveLanguage code language h = (Ok resolved, h).
Proof.
  intros Hdet. unfold resolveLanguage. destruct (omitted language).
  - by apply detectLanguage_returns.
  - unfold retM. eauto.
Qed.

Lemma highlightCode_returns (code : string) (language : option string) :
  resolvesRegistered lib -> plaintextRenders lib -> detectionReturns lib ->
  exists markup, highlightCode code language hljs = (Ok markup, hljs).
Proof.
  intros Hres Hplain Hdet.
  destruct (resolveLanguage_returns code language hljs Hdet) as [resolved Hr].
  destruct (getLanguage (languages hljs) resolved) as [g|] eqn:Hg.
  - destruct (render g code) as [markup|e] eqn:Hrender.
    + exists markup. rewrite (highlightCode_resolved _ _ _ _ Hr).
      unfold try_catchM, hljs_highlight. by rewrite Hg, Hrender.
    + destruct (Hplain code) as [markup Hm]. exists markup.
      rewrite (highlightCode_fallback code language resolved Hres Hr); [by rewrite Hm|].
      right. eauto.
  - destruct (Hplain code) as [markup Hm]. exists markup.
    rewrite (highlightCode_fallback code language resolved Hres Hr); [by rewrite Hm|].
    by left.
Qed.

End HighlightFacts.

Lemma processAttachment_returns (host : PdfHost) (extractedContent : string) (attachment : JsValue) :
  descriptor attachment -> returns (processAttachment extractedContent attachment).
Proof.
  intros (n & Hn & s & Hs). unfold processAttachment, returns. rewrite Hn. simpl.
  destruct (getProp_any _ _ _ "contentType" Hn) as [ct ->]. simpl.
  destruct (strict_eq_string ct "application/pdf"); [|eauto].
  destruct (getProp_any _ _ _ "url" Hn) as [url ->]. simpl.
  destruct (truthy url); [|eauto].
  destruct (extractTextFromPDF_returns url) as [pdfText ->]. simpl.
  rewrite Hs. simpl. eauto.
Qed.

Lemma processAttachments_returns (host : PdfHost) (attachments : JsValue) :
  Forall descriptor (elements_of attachments) -> returns (processAttachments attachments).
Proof.
  intros Hall. unfold processAttachments.
  destruct (_ || _); [by eexists|].
  generalize EmptyString.
  induction Hall as [|a l Ha _ IH]; intros acc; simpl; [by eexists|].
  destruct (processAttachment_returns host acc a Ha) as [acc' ->]. simpl. apply IH.
Qed.

(** ** The toy highlighter keeps the contract *)

Lemma demo_resolvesRegistered : resolvesRegistered Demo.lib.
Proof. intros table name g H. exact H. Qed.

Lemma demo_plaintextRenders : plaintextRenders Demo.lib.
Proof. intros code. by eexists. Qed.

Lemma demo_detectionReturns : detectionReturns Demo.lib.
Proof.
  intros table code subset. simpl. unfold Demo.firstWord.
  repeat (destruct (_ && _); [by eexists|]). by eexists.
Qed.

(** ** The claims about the utilities *)

(** C4, as stated, fails: a list holding [null] makes
    [processAttachments] throw while it reads [attachment.name]. *)
Lemma null_attachment_escapes :
  @processAttachments Demo.host (JArr [JNull])
  = Throw (TypeError "Cannot read properties of null (reading 'name')").
Proof. reflexivity. Qed.

(** A second way out of [processAttachments]: a name that cannot be
    converted to a string. *)
Example unprintable_name_escapes :
  @processAttachments Demo.host (JArr [Demo.unprintable])
  = Throw (TypeError "Cannot convert object to primitive value").
Proof. vm_compute. reflexivity. Qed.

(** C4, amended: no exception escapes [processAttachments] for an input
    that is not a list, or a list whose elements all have readable
    properties and a name that converts to a string; and, with a
    highlight.js that resolves registered names, renders plain text and
    returns from detection, none escapes [detectLanguage] or
    [highlightCode] for any code and language strings.  Every failure
    inside becomes a string result. *)
Theorem no_exception_escapes (host : PdfHost) (lib : HighlightJs) :
  resolvesRegistered lib -> plaintextRenders lib -> detectionReturns lib ->
  (forall attachments,
      Forall descriptor (elements_of attachments) ->
      exists content, processAttachments attachments = Ok content)
  /\ (forall code, exists id, detectLanguage code hljs = (Ok id, hljs))
  /\ (forall code language,
        exists markup, highlightCode code language hljs = (Ok markup, hljs)).
Proof.
  intros Hres Hplain Hdet. split; [|split].
  - intros attachments Hall. by apply processAttachments_returns.
  - intros code. by apply detectLanguage_returns.
  - intros code language. by apply highlightCode_returns.
Qed.

Lemma no_exception_escapes_witness :
  (exists content,
      @processAttachments Demo.host
        (JArr [Demo.undecodable; Demo.image; JStr "stray"; Demo.garbage]) = Ok content)
  /\ (exists id, @detectLanguage Demo.lib "SELECT 1" hljs = (Ok id, hljs))
  /\ (exists markup,
        @highlightCode Demo.lib "\alpha" (Some "tex") hljs = (Ok markup, hljs)).
Proof.
  destruct (no_exception_escapes Demo.host Demo.lib
              demo_resolvesRegistered demo_plaintextRenders demo_detectionReturns)
    as (Hp & Hd & Hh).
  split; [|split].
  - apply Hp. repeat constructor; eexists; (split; [reflexivity | by eexists]).
  - apply Hd.
  - apply Hh.
Defined.

(** C5: [highlightCode] never throws, for any code and any language
    identifier; when the grammar of the resolved identifier is absent
    from the registry, or rendering under it fails, the result is the
    rendering of the code under the plain-text grammar. *)
Theorem highlightCode_never_throws (lib : HighlightJs)
    (code : string) (language : option string) :
  resolvesRegistered lib -> plaintextRenders lib -> detectionReturns lib ->
  (exists markup, highlightCode code language hljs = (Ok markup, hljs))
  /\ (forall resolved,
        resolveLanguage code language hljs = (Ok resolved, hljs) ->
        getLanguage (languages hljs) resolved = None \/
        (exists g e, getLanguage (languages hljs) resolved = Some g /\ render g code = Throw e) ->
        highlightCode code language hljs = (render Languages.plaintext code, hljs)).
Proof.
  intros Hres Hplain Hdet. split.
  - by apply highlightCode_returns.
  - intros resolved Hr Hfail. by eapply highlightCode_fallback.
Qed.

Lemma highlightCode_never_throws_witness :
  @highlightCode Demo.lib "\alpha + \beta" (Some "tex") hljs = (Ok "\alpha + \beta", hljs)
  /\ @highlightCode Demo.lib "let x = 1" (Some "ocaml") hljs = (Ok "let x = 1", hljs).
Proof.
  split.
  - apply (highlightCode_never_throws Demo.lib "\alpha + \beta" (Some "tex")
             demo_resolvesRegistered demo_plaintextRenders demo_detectionReturns) with "tex".
    + reflexivity.
    + right. exists Languages.latex, (mkError "Maximum call stack size exceeded").
      split; [vm_compute|]; reflexivity.
  - apply (highlightCode_never_throws Demo.lib "let x = 1" (Some "ocaml")
             demo_resolvesRegistered demo_plaintextRenders demo_detectionReturns) with "ocaml".
    + reflexivity.
    + left. vm_compute. reflexivity.
Defined.

(** C6, as stated, fails: for code in which a language is detected, the
    call without identifier renders under the detected grammar, while
    the call with an unrecognized identifier renders as plain text. *)
Lemma unrecognized_language_differs_from_detection :
  @getLanguage Demo.lib (languages hljs) "zig" = None
  /\ @highlightCode Demo.lib "const x = 1" (Some "zig") hljs = (Ok "const x = 1", hljs)
  /\ @highlightCode Demo.lib "const x = 1" None hljs
     = (Ok "<span>const x = 1</span>", hljs)
  /\ @highlightCode Demo.lib "const x = 1" (Some "zig") hljs
     <> @highlightCode Demo.lib "const x = 1" None hljs.
Proof.
  assert (H1 : @highlightCode Demo.lib "const x = 1" (Some "zig") hljs
               = (Ok "const x = 1", hljs)) by (vm_compute; reflexivity).
  assert (H2 : @highlightCode Demo.lib "const x = 1" None hljs
               = (Ok "<span>const x = 1</span>", hljs)) by (vm_compute; reflexivity).
  split; [vm_compute; reflexivity|]. split; [exact H1|]. split; [exact H2|].
  rewrite H1, H2. by intros [= ?].
Qed.

(** C6, amended: for an identifier the registry does not resolve, and
    any code, neither [highlightCode(code, id)] nor [highlightCode(code)]
    throws, and [highlightCode(code, id)] returns the plain-text
    rendering (the empty identifier counts as omitted).  The two calls
    return the same result when the call without identifier resolves
    through the plain-text fallback, that is when [detectLanguage] gives
    [plaintext]. *)
Theorem unrecognized_language_is_plaintext (lib : HighlightJs)
    (code unrecognizedId : string) :
  resolvesRegistered lib -> plaintextRenders lib -> detectionReturns lib ->
  getLanguage (languages hljs) unrecognizedId = None ->
  (exists markup, highlightCode code (Some unrecognizedId) hljs = (Ok markup, hljs))
  /\ (exists markup, highlightCode code None hljs = (Ok markup, hljs))
  /\ (unrecognizedId <> EmptyString ->
      highlightCode code (Some unrecognizedId) hljs
      = (render Languages.plaintext code, hljs))
  /\ (detectLanguage code hljs = (Ok "plaintext", hljs) ->
      highlightCode code (Some unrecognizedId) hljs = highlightCode code None hljs
      /\ highlightCode code None hljs = (render Languages.plaintext code, hljs)).
Proof.
  intros Hres Hplain Hdet Hnone.
  assert (Hexplicit : unrecognizedId <> EmptyString ->
            highlightCode code (Some unrecognizedId) hljs
            = (render Languages.plaintext code, hljs)).
  { intros Hne. apply highlightCode_fallback with unrecognizedId; [done| |by left].
    unfold resolveLanguage, omitted. simpl.
    by destruct (String.eqb_spec unrecognizedId EmptyString). }
  split; [by apply highlightCode_returns|].
  split; [by apply highlightCode_returns|].
  split; [exact Hexplicit|].
  intros Hdetect.
  assert (Hauto : highlightCode code None hljs = (render Languages.plaintext code, hljs)).
  { rewrite (highlightCode_resolved code None "plaintext" hljs) by exact Hdetect.
    unfold try_catchM. rewrite (highlight_plaintext code Hres).
    destruct (render Languages.plaintext code) eqn:Hrender; [done|].
    by rewrite (highlight_plaintext code Hres), Hrender. }
  split; [|exact Hauto].
  destruct (String.eqb_spec unrecognizedId EmptyString) as [->|Hne].
  - reflexivity.
  - by rewrite Hexplicit, Hauto.
Qed.

Lemma unrecognized_language_is_plaintext_witness :
  @highlightCode Demo.lib "fn main() {}" (Some "zig") hljs = (Ok "fn main() {}", hljs)
  /\ @highlightCode Demo.lib "fn main() {}" (Some "zig") hljs
     = @highlightCode Demo.lib "fn main() {}" None hljs.
Proof.
  destruct (unrecognized_language_is_plaintext Demo.lib "fn main() {}" "zig"
              demo_resolvesRegistered demo_plaintextRenders demo_detectionReturns)
    as (_ & _ & Hexplicit & Hsame).
  - vm_compute. reflexivity.
  - split.
    + apply Hexplicit. discriminate.
    + apply Hsame. vm_compute. reflexivity.
Defined.

(** C8: whenever the automatic classification of highlight.js returns,
    [detectLanguage] returns an identifier that is not empty: the
    detected language when there is one, and [plaintext] when there is
    none.  The classification runs against the fixed list of thirteen
    candidates, all of them registered. *)
Theorem detectLanguage_never_empty (lib : HighlightJs)
    (code : string) (detection : option string) :
  highlightAuto (languages hljs) code
    [ "typescript"; "javascript"; "python"; "java"; "html"; "css";
      "json"; "bash"; "yaml"; "sql"; "php"; "csharp"; "cpp" ] = Ok detection ->
  (exists id,
      detectLanguage code hljs = (Ok id, hljs)
      /\ id <> EmptyString
      /\ (forall language, detection = Some language -> language <> EmptyString ->
            id = language)
      /\ (detection = None \/ detection = Some EmptyString -> id = "plaintext")
      /\ (id = "plaintext" \/ detection = Some id))
  /\ Forall (fun name => is_Some (languages hljs !! name))
       [ "typescript"; "javascript"; "python"; "java"; "html"; "css";
         "json"; "bash"; "yaml"; "sql"; "php"; "csharp"; "cpp" ].
Proof.
  intros Hauto. split; [|apply detectCandidates_registered].
  exists (or_else detection "plaintext"). split.
  { unfold detectLanguage, bindM, hljs_highlightAuto.
    unfold detectCandidates. by rewrite Hauto. }
  unfold or_else, truthy. destruct detection as [l|].
  - destruct (String.eqb_spec l EmptyString) as [->|Hne]; unfold negb.
    + split; [done|]. split; [by intros ? [= <-]|]. split; [done | by left].
    + split; [done|]. split; [by intros ? [= <-]|].
      split; [by intros [?|[= ?]] | by right].
  - split; [done|]. split; [done|]. split; [done | by left].
Qed.

Lemma detectLanguage_never_empty_witness :
  @detectLanguage Demo.lib "const x = 1" hljs = (Ok "javascript", hljs)
  /\ @detectLanguage Demo.lib "SELECT 1" hljs = (Ok "plaintext", hljs).
Proof.
  split.
  - destruct (detectLanguage_never_empty Demo.lib "const x = 1" (Some "javascript"))
      as ((id & Hid & _ & Hdetected & _) & _); [reflexivity|].
    by rewrite Hid, (Hdetected "javascript").
  - destruct (detectLanguage_never_empty Demo.lib "SELECT 1" None)
      as ((id & Hid & _ & _ & Hnone & _) & _); [reflexivity|].
    rewrite Hid, Hnone; [reflexivity | by left].
Defined.

(** * Further properties of the extractor *)

(** ** Fields of a data URL *)

Lemma split_without (sep : ascii) (s : string) :
  contains sep s = false -> split sep s = [s].
Proof.
  induction s as [|c s IH]; simpl; [done|].
  intros [Hc Hs]%orb_false_elim. by rewrite Hc, IH.
Qed.

Lemma split_field (sep : ascii) (field rest : string) :
  contains sep field = false ->
  split sep (field +:+ String sep rest) = field :: split sep rest.
Proof.
  induction field as [|c field IH]; intros H.
  - rewrite append_nil_l. simpl. by rewrite Ascii.eqb_refl.
  - simpl in H. apply orb_false_elim in H as [Hc Hf].
    rewrite append_cons. simpl. by rewrite Hc, IH.
Qed.

Lemma comma_string (s : string) : "," +:+ s = String ","%char s.
Proof. reflexivity. Qed.

Section ExtractorEdges.
Context {host : PdfHost}.

(** The string handed to [atob] decides the result. *)
Lemma extract_by_payload (url url' : string) :
  index_of (split ","%char url) 1 = index_of (split ","%char url') 1 ->
  extractTextFromPDF (JStr url) = extractTextFromPDF (JStr url').
Proof. unfold extractTextFromPDF. simpl. by intros ->. Qed.

Lemma index_second_field (prefix payload : string) (more : list string) :
  contains ","%char prefix = false ->
  forall s, split ","%char s = payload :: more ->
  index_of (split ","%char (prefix +:+ "," +:+ s)) 1 = JStr payload.
Proof.
  intros Hp s Hs. rewrite comma_string, split_field by done. by rewrite Hs.
Qed.

Lemma processAttachment_returns_iff (extractedContent : string) (attachment : JsValue) :
  returns (processAttachment extractedContent attachment) <-> processable attachment.
Proof.
  unfold processable, handled, processAttachment, returns. split.
  - intros [out H].
    destruct (getProp attachment "name") as [n|e] eqn:Hn; simpl in H; [|done].
    exists n. split; [done|].
    destruct (getProp attachment "contentType") as [ct|e]; simpl in *; [|done].
    destruct (strict_eq_string ct "application/pdf"); simpl; [|by destruct (getProp attachment "url")].
    destruct (getProp attachment "url") as [url|e]; simpl in *; [|done].
    destruct (truthy url); simpl in *; [|done].
    intros _. destruct (extractTextFromPDF url); simpl in H; [|done].
    destruct (ToString n); [by eexists|done].
  - intros (n & Hn & Hs). rewrite Hn. simpl.
    destruct (getProp_any _ _ _ "contentType" Hn) as [ct Hct].
    destruct (getProp_any _ _ _ "url" Hn) as [url Hurl].
    rewrite Hct, Hurl in *. simpl.
    destruct (strict_eq_string ct "application/pdf"); simpl in *; [|by eexists].
    destruct (truthy url); simpl in *; [|by eexists].
    destruct (extractTextFromPDF_returns url) as [pdfText ->]. simpl.
    destruct (Hs eq_refl) as [s ->]. simpl. by eexists.
Qed.

Lemma processAttachments_cons (attachment : JsValue) (l : list JsValue) :
  processAttachments (JArr (attachment :: l))
  = (P <- processAttachments (JArr [attachment]) ;;
     Q <- processAttachments (JArr l) ;;
     Ok (P +:+ Q)).
Proof. apply (processAttachments_app [attachment] l). Qed.

Lemma unhandled_is_skipped (attachment : JsValue) :
  attachment <> JUndefined -> attachment <> JNull -> handled attachment = false ->
  skipped attachment.
Proof.
  intros Hu Hn. unfold handled, skipped.
  destruct attachment; try done; simpl;
    try (intros _; eexists; split; [reflexivity | by left]).
  intros H. eexists. split; [reflexivity|].
  apply andb_false_iff in H as [H|H]; [by left | right; eauto].
Qed.

End ExtractorEdges.

(** X1: a [url] that is truthy but no string (a number, an object, a
    list) never reaches [atob]: the placeholder reports that it has no
    [split] method. *)
Theorem url_that_is_no_string (host : PdfHost) (pdfDataUrl : JsValue) :
  truthy pdfDataUrl = true ->
  (forall s, pdfDataUrl <> JStr s) ->
  extractTextFromPDF pdfDataUrl
  = Ok "[Unable to extract PDF content. Error: pdfDataUrl.split is not a function]".
Proof.
  intros Ht Hs. destruct pdfDataUrl; try done. by destruct (Hs s).
Qed.

Lemma url_that_is_no_string_witness :
  @extractTextFromPDF Demo.host (JNum 42)
  = Ok "[Unable to extract PDF content. Error: pdfDataUrl.split is not a function]".
Proof.
  apply (url_that_is_no_string Demo.host (JNum 42)); [reflexivity | discriminate].
Defined.

(** X2: of a data URL only the text between the first and the second
    comma is read.  The part before the first comma (media type,
    encoding marker) is never checked, and whatever follows a second
    comma is dropped. *)
Theorem only_the_second_field_is_read (host : PdfHost)
    (prefix prefix' payload rest : string) :
  contains ","%char prefix = false ->
  contains ","%char prefix' = false ->
  contains ","%char payload = false ->
  extractTextFromPDF (JStr (prefix +:+ "," +:+ payload +:+ "," +:+ rest))
  = extractTextFromPDF (JStr (prefix' +:+ "," +:+ payload)).
Proof.
  intros Hp Hp' Hpay. apply extract_by_payload.
  rewrite (index_second_field prefix payload (split ","%char rest)) by
    (try done; by rewrite comma_string, split_field).
  by rewrite (index_second_field prefix' payload []) by
    (try done; by apply split_without).
Qed.

Lemma only_the_second_field_is_read_witness :
  @extractTextFromPDF Demo.host
    (JStr ("data:application/pdf;base64" +:+ "," +:+ "JVBERgpIZWxsbyBXb3JsZApCeWU="
           +:+ "," +:+ "trailing"))
  = @extractTextFromPDF Demo.host
      (JStr ("data:text/plain" +:+ "," +:+ "JVBERgpIZWxsbyBXb3JsZApCeWU=")).
Proof.
  apply (only_the_second_field_is_read Demo.host); reflexivity.
Defined.

(** X3: a URL without any comma (a remote address, say) is not fetched:
    the missing second field reads as [undefined], so [atob] is applied
    to the text "undefined", and when [atob] rejects that text the result
    is the placeholder with its error. *)
Theorem url_without_comma (host : PdfHost) (url : string) :
  contains ","%char url = false ->
  extractTextFromPDF (JStr url) = extractTextFromPDF (JStr ",undefined")
  /\ forall e, atob "undefined" = Throw e ->
       extractTextFromPDF (JStr url) = Ok (extractionFailure e).
Proof.
  intros Hc.
  assert (Hu : index_of (split ","%char url) 1 = JUndefined)
    by (by rewrite split_without).
  split.
  - unfold extractTextFromPDF. simpl. by rewrite Hu.
  - intros e He. apply extractTextFromPDF_failure. simpl. rewrite Hu. simpl.
    by rewrite He.
Qed.

Lemma url_without_comma_witness :
  @extractTextFromPDF Demo.host (JStr "https://example.com/report.pdf")
  = @extractTextFromPDF Demo.host (JStr ",undefined")
  /\ forall e, @atob Demo.host "undefined" = Throw e ->
       @extractTextFromPDF Demo.host (JStr "https://example.com/report.pdf")
       = Ok (extractionFailure e).
Proof.
  apply (url_without_comma Demo.host "https://example.com/report.pdf"). reflexivity.
Defined.

(** X4: when a page cannot be read, the text of the pages before it is
    not returned either: the whole result is the placeholder carrying the
    error of that page. *)
Theorem unreadable_page_discards_text (host : PdfHost)
    (url encoded binaryString : string) (pdf : PDFDocumentProxy)
    (texts : list (list TextItem)) (e : JsError) :
  payloadOf url encoded ->
  atob encoded = Ok binaryString ->
  getDocument (bytesOf binaryString) = Ok pdf ->
  length texts < numPages pdf ->
  pagesYield pdf 1 texts ->
  pageFails pdf (S (length texts)) e ->
  extractTextFromPDF (JStr url) = Ok (extractionFailure e).
Proof.
  intros Hp Hd Ho Hlt Hy Hfail. apply extractTextFromPDF_failure. simpl.
  unfold payloadOf in Hp. rewrite Hp. simpl. rewrite Hd. simpl. rewrite Ho. simpl.
  replace (numPages pdf) with (length texts + S (numPages pdf - S (length texts))) by lia.
  rewrite seq_app, for_of_app, page_loop by done. simpl.
  unfold extractPage at 1.
  destruct Hfail as [-> | (page & -> & Ht)]; [done|]. simpl. by rewrite Ht.
Qed.

Lemma unreadable_page_discards_text_witness :
  @extractTextFromPDF Demo.host (JStr Demo.halfReadableUrl)
  = Ok (extractionFailure (mkError "Page is damaged.")).
Proof.
  apply (unreadable_page_discards_text Demo.host Demo.halfReadableUrl
           "JVBERgpmaXJzdCBwYWdlCiFkYW1hZ2VkCnRoaXJk"
           ("%PDF" +:+ LF +:+ "first page" +:+ LF +:+ "!damaged" +:+ LF +:+ "third")
           (Demo.document_of ["first page"; "!damaged"; "third"])
           [ [ {| str := "first" |}; {| str := "page" |} ] ]).
  - reflexivity.
  - reflexivity.
  - reflexivity.
  - simpl. lia.
  - intros [|k] fragments Hk; simplify_eq/=. eexists _, _. repeat split; reflexivity.
  - left. reflexivity.
Defined.

(** ** The attachment loop as a whole *)

(** X5: processing a list is processing its two halves and appending the
    results, in order; a failure in the first half is the failure of the
    whole, and otherwise a failure in the second half is. *)
Theorem attachments_compose (host : PdfHost) (l1 l2 : list JsValue) :
  processAttachments (JArr (l1 ++ l2))
  = match processAttachments (JArr l1), processAttachments (JArr l2) with
    | Ok P, Ok Q => Ok (P +:+ Q)
    | Throw e, _ => Throw e
    | Ok _, Throw e => Throw e
    end.
Proof.
  rewrite processAttachments_app.
  destruct (processAttachments (JArr l1)); simpl; [|done].
  by destruct (processAttachments (JArr l2)).
Qed.

(** X6: a [null] or [undefined] element aborts the batch: the call
    rejects with the [TypeError] of reading its [name], and what the
    attachments before it produced is lost. *)
Theorem nullish_element_aborts (host : PdfHost)
    (before after : list JsValue) (element : JsValue) (P : string) :
  element = JNull \/ element = JUndefined ->
  processAttachments (JArr before) = Ok P ->
  exists e,
    getProp element "name" = Throw e
    /\ processAttachments (JArr (before ++ element :: after)) = Throw e.
Proof.
  intros Hel HP.
  rewrite processAttachments_app, HP, processAttachments_cons. simpl.
  destruct Hel as [-> | ->]; eexists; split; reflexivity.
Qed.

Lemma nullish_element_aborts_witness :
  exists e,
    getProp JNull "name" = Throw e
    /\ @processAttachments Demo.host (JArr ([Demo.notes] ++ JNull :: [Demo.notes])) = Throw e.
Proof.
  apply (nullish_element_aborts Demo.host [Demo.notes] [Demo.notes] JNull
           (attachmentBlock "notes.pdf" (pagesFrom 1 Demo.notesPages))).
  - left. reflexivity.
  - vm_compute. reflexivity.
Defined.

(** X7: in a list without [null] or [undefined] elements, only the
    attachments with content type [application/pdf] and a truthy [url]
    count: dropping all others from the list leaves the result as it
    is. *)
Theorem only_handled_attachments_count (host : PdfHost) (l : list JsValue) :
  Forall (fun a => a <> JUndefined /\ a <> JNull) l ->
  processAttachments (JArr l) = processAttachments (JArr (List.filter handled l)).
Proof.
  induction 1 as [|a l [Hu Hn] _ IH]; [reflexivity|].
  simpl. destruct (handled a) eqn:Hh.
  - by rewrite (processAttachments_cons a l), (processAttachments_cons a (List.filter _ _)), IH.
  - rewrite (processAttachments_skip [] l a) by (by apply unhandled_is_skipped).
    exact IH.
Qed.

Lemma only_handled_attachments_count_witness :
  @processAttachments Demo.host
    (JArr [Demo.image; Demo.notes; JStr "stray"; Demo.noUrl; Demo.garbage])
  = @processAttachments Demo.host (JArr [Demo.notes; Demo.garbage]).
Proof.
  apply (only_handled_attachments_count Demo.host
           [Demo.image; Demo.notes; JStr "stray"; Demo.noUrl; Demo.garbage]).
  repeat constructor; discriminate.
Defined.

(** X8: [processAttachments] returns on a list exactly when every
    element has readable properties and every element that is extracted
    has a name that converts to a string; nothing else makes it
    throw. *)
Theorem processAttachments_returns_iff (host : PdfHost) (l : list JsValue) :
  returns (processAttachments (JArr l)) <-> Forall processable l.
Proof.
  induction l as [|a l IH].
  - split; [constructor | by eexists].
  - rewrite processAttachments_cons, Forall_cons, <- IH,
      <- (processAttachment_returns_iff EmptyString a).
    change (processAttachments (JArr [a]))
      with (s' <- processAttachment EmptyString a ;; Ok s').
    unfold returns.
    destruct (processAttachment EmptyString a) as [P|e]; simpl.
    + destruct (processAttachments (JArr l)) as [Q|e]; simpl.
      * split; [eauto | by eexists].
      * split; [by intros [? ?] | by intros [_ [? ?]]].
    + split; [by intros [? ?] | by intros [[? ?] _]].
Qed.

(** X9: an attachment with a string name whose PDF opens and whose pages
    all yield their text produces exactly one block: two line feeds, the
    line [Content from PDF file "name":], the pages in ascending order,
    each under its separator line, and two line feeds. *)
Theorem readable_attachment_block (host : PdfHost)
    (attachment : JsValue) (name url encoded binaryString : string)
    (pdf : PDFDocumentProxy) (texts : list (list TextItem)) :
  getProp attachment "contentType" = Ok (JStr "application/pdf") ->
  getProp attachment "url" = Ok (JStr url) ->
  url <> EmptyString ->
  getProp attachment "name" = Ok (JStr name) ->
  payloadOf url encoded ->
  atob encoded = Ok binaryString ->
  getDocument (bytesOf binaryString) = Ok pdf ->
  length texts = numPages pdf ->
  pagesYield pdf 1 texts ->
  processAttachments (JArr [attachment])
  = Ok (LF +:+ LF +:+ "Content from PDF file " +:+ DQUOTE +:+ name +:+ DQUOTE +:+ ":" +:+ LF
           +:+ pagesFrom 1 texts +:+ LF +:+ LF).
Proof.
  intros Hct Hurl Hne Hname Hp Hd Ho Hlen Hy.
  apply (single_attachment attachment (JStr url) name (pagesFrom 1 texts)
           Hct Hurl (truthy_string url Hne) Hname).
  exact (extraction_succeeds url encoded binaryString pdf texts Hp Hd Ho Hlen Hy).
Qed.

Lemma readable_attachment_block_witness :
  @processAttachments Demo.host (JArr [Demo.notes])
  = Ok (LF +:+ LF +:+ "Content from PDF file " +:+ DQUOTE +:+ "notes.pdf" +:+ DQUOTE
           +:+ ":" +:+ LF +:+ pagesFrom 1 Demo.notesPages +:+ LF +:+ LF).
Proof.
  apply (readable_attachment_block Demo.host Demo.notes
           "notes.pdf" Demo.notesUrl "JVBERgpIZWxsbyBXb3JsZApCeWU="
           ("%PDF" +:+ LF +:+ "Hello World" +:+ LF +:+ "Bye")
           (Demo.document_of ["Hello World"; "Bye"])).
  - reflexivity.
  - reflexivity.
  - discriminate.
  - reflexivity.
  - reflexivity.
  - reflexivity.
  - reflexivity.
  - reflexivity.
  - intros [|[|k]] fragments Hk; simplify_eq/=; eexists _, _; repeat split; reflexivity.
Defined.

(** * Further properties of the code-language utility *)

Lemma demo_detectsWithinSubset : detectsWithinSubset Demo.lib.
Proof.
  intros table code subset l. simpl. unfold Demo.firstWord.
  destruct (String.prefix "const " code); simpl.
  - case_bool_decide; [by intros [= <-]|].
    destruct (String.prefix "def " code); simpl; [|done].
    case_bool_decide; [by intros [= <-] | done].
  - destruct (String.prefix "def " code); simpl; [|done].
    case_bool_decide; [by intros [= <-] | done].
Qed.

Lemma empty_name_unregistered {lib : HighlightJs} : languages hljs !! EmptyString = None.
Proof. by rewrite hljs_lookup. Qed.

Lemma resolveLanguage_explicit {lib : HighlightJs} (code name : string) (h : Hljs) :
  name <> EmptyString -> resolveLanguage code (Some name) h = (Ok name, h).
Proof.
  intros Hne. unfold resolveLanguage, omitted. simpl.
  by destruct (String.eqb_spec name EmptyString).
Qed.

(** X10: the only two ways for [highlightCode] to throw.  Either the
    language is omitted and the automatic detection throws (it runs
    before the [try]), or the first rendering throws and the plain-text
    rendering in the [catch] clause throws as well; the exception is then
    that of the detection, respectively of the plain-text rendering. *)
Theorem highlightCode_throws_iff (lib : HighlightJs)
    (code : string) (language : option string) (h : Hljs) (e : JsError) :
  highlightCode code language h = (Throw e, h)
  <-> (omitted language = true
       /\ highlightAuto (languages h) code detectCandidates = Throw e)
      \/ (exists resolved e0,
             resolveLanguage code language h = (Ok resolved, h)
             /\ hljs_highlight code resolved h = (Throw e0, h)
             /\ hljs_highlight code "plaintext" h = (Throw e, h)).
Proof.
  unfold highlightCode, bindM, resolveLanguage, try_catchM.
  unfold detectLanguage, bindM, hljs_highlightAuto, retM, hljs_highlight.
  destruct (omitted language); simpl.
  - destruct (highlightAuto (languages h) code detectCandidates) as [d|e1]; simpl.
    + destruct (match getLanguage (languages h) (or_else d "plaintext") with
                | Some g => render g code | None => _ end) as [m|e0] eqn:Hfirst.
      * split; [done|]. intros [[_ ?] | (r & e0 & [= <-] & [= ?] & _)]; [done|].
        congruence.
      * split.
        -- intros H. right. exists (or_else d "plaintext"), e0.
           by rewrite Hfirst.
        -- intros [[_ ?] | (r & e0' & [= <-] & _ & H)]; [done | exact H].
    + split.
      * intros [= ->]. by left.
      * intros [[_ [= ->]] | (r & e0 & ? & _)]; done.
  - destruct (match getLanguage (languages h) (default EmptyString language) with
              | Some g => render g code | None => _ end) as [m|e0] eqn:Hfirst.
    + split; [done|]. intros [[? _] | (r & e0 & [= <-] & [= ?] & _)]; [done|].
      congruence.
    + split.
      * intros H. right. exists (default EmptyString language), e0.
        by rewrite Hfirst.
      * intros [[? _] | (r & e0' & [= <-] & _ & H)]; [done | exact H].
Qed.

(** X11: two names registered for the same grammar are interchangeable:
    [highlightCode] returns the same result under either. *)
Theorem names_of_one_grammar_agree (lib : HighlightJs)
    (code name1 name2 : string) (g : Grammar) :
  resolvesRegistered lib ->
  languages hljs !! name1 = Some g ->
  languages hljs !! name2 = Some g ->
  highlightCode code (Some name1) hljs = highlightCode code (Some name2) hljs.
Proof.
  intros Hres H1 H2.
  assert (Hne : forall name, languages hljs !! name = Some g -> name <> EmptyString).
  { intros name Hn ->. by rewrite empty_name_unregistered in Hn. }
  rewrite (highlightCode_resolved code (Some name1) name1 hljs)
    by (apply resolveLanguage_explicit; eauto).
  rewrite (highlightCode_resolved code (Some name2) name2 hljs)
    by (apply resolveLanguage_explicit; eauto).
  unfold try_catchM, hljs_highlight.
  by rewrite (Hres _ _ _ H1), (Hres _ _ _ H2).
Qed.

Lemma names_of_one_grammar_agree_witness :
  @highlightCode Demo.lib "let x = 1;" (Some "js") hljs
  = @highlightCode Demo.lib "let x = 1;" (Some "javascript") hljs.
Proof.
  apply (names_of_one_grammar_agree Demo.lib "let x = 1;" "js" "javascript"
           Languages.javascript demo_resolvesRegistered).
  - rewrite hljs_lookup. reflexivity.
  - rewrite hljs_lookup. reflexivity.
Defined.

(** X12: with a highlight.js that picks the detected language among the
    candidates it is given, [detectLanguage] returns a name registered in
    the table; so, called without a language, [highlightCode] returns the
    rendering under the grammar of that name whenever that rendering
    succeeds. *)
Theorem detected_language_is_registered (lib : HighlightJs)
    (code : string) (detection : option string) :
  detectsWithinSubset lib ->
  resolvesRegistered lib ->
  highlightAuto (languages hljs) code detectCandidates = Ok detection ->
  exists id g,
    detectLanguage code hljs = (Ok id, hljs)
    /\ languages hljs !! id = Some g
    /\ forall markup, render g code = Ok markup ->
         highlightCode code None hljs = (Ok markup, hljs).
Proof.
  intros Hsub Hres Hauto.
  assert (Hdet : detectLanguage code hljs = (Ok (or_else detection "plaintext"), hljs)).
  { unfold detectLanguage, bindM, hljs_highlightAuto. by rewrite Hauto. }
  assert (Hreg : is_Some (languages hljs !! or_else detection "plaintext")).
  { destruct detection as [l|]; unfold or_else, truthy;
      [|rewrite plaintext_registered; by eexists].
    destruct (String.eqb_spec l EmptyString); unfold negb;
      [rewrite plaintext_registered; by eexists|].
    pose proof detectCandidates_registered as Hall.
    rewrite Forall_forall in Hall. apply Hall. by eapply Hsub. }
  destruct Hreg as [g Hg].
  exists (or_else detection "plaintext"), g.
  split; [exact Hdet|]. split; [exact Hg|].
  intros markup Hrender.
  rewrite (highlightCode_resolved code None (or_else detection "plaintext") hljs) by done.
  unfold try_catchM, hljs_highlight. by rewrite (Hres _ _ _ Hg), Hrender.
Qed.

Lemma detected_language_is_registered_witness :
  exists id g,
    @detectLanguage Demo.lib "const x = 1" hljs = (Ok id, hljs)
    /\ languages hljs !! id = Some g
    /\ forall markup, @render Demo.lib g "const x = 1" = Ok markup ->
         @highlightCode Demo.lib "const x = 1" None hljs = (Ok markup, hljs).
Proof.
  apply (detected_language_is_registered Demo.lib "const x = 1" (Some "javascript")
           demo_detectsWithinSubset demo_resolvesRegistered).
  reflexivity.
Defined.

(** * Properties of the chat route *)

(** X13: the message sent to the client is never empty, and it is the
    text of the error itself whenever the error is a non-empty string or
    an [Error] with a non-empty message. *)
Theorem getErrorMessage_never_empty (error : Unknown) :
  getErrorMessage error <> EmptyString
  /\ forall s, s <> EmptyString ->
       error = Plain (JStr s) \/ error = ErrorObject (mkError s) ->
       getErrorMessage error = s.
Proof.
  split.
  - destruct error as [v|[msg]]; unfold getErrorMessage; simpl.
    + destruct v; simpl; try done.
      * by destruct b.
      * by destruct (z =? 0)%Z.
      * by destruct (String.eqb_spec s EmptyString).
    + by destruct (String.eqb_spec msg EmptyString).
  - intros s Hne [-> | ->]; unfold getErrorMessage; simpl;
      by destruct (String.eqb_spec s EmptyString).
Qed.

Section RouteFacts.
Context {sdk : AiSdk}.

Lemma describe_readable (l : list JsValue) :
  Forall (fun f => f <> JUndefined /\ f <> JNull) l ->
  for_of l describeAttachment tt = Ok tt.
Proof.
  induction 1 as [|f l [Hu Hn] _ IH]; [reflexivity|].
  simpl. unfold describeAttachment at 1. by destruct f.
Qed.

Lemma describe_nullish (before after : list JsValue) (f : JsValue) (e : JsError) :
  Forall (fun f => f <> JUndefined /\ f <> JNull) before ->
  getProp f "name" = Throw e ->
  for_of (before ++ f :: after) describeAttachment tt = Throw e.
Proof.
  intros Hb Hf. rewrite for_of_app, describe_readable by done. simpl.
  unfold describeAttachment at 1. by rewrite Hf.
Qed.

Lemma logging_returns (experimental_attachments : JsValue) :
  loggable experimental_attachments ->
  (if truthy experimental_attachments && isArray experimental_attachments
   then for_of (elements_of experimental_attachments) describeAttachment tt
   else Ok tt) = Ok tt.
Proof.
  unfold loggable. intros Hlog. destruct (_ && _); [|done].
  by apply describe_readable, Hlog.
Qed.

Lemma destructure_any (body v : JsValue) (key key' : string) :
  destructure body key = Ok v -> exists v', destructure body key' = Ok v'.
Proof. destruct body; simpl; intros H; try discriminate; eauto. Qed.

Lemma destructure_throws (body : JsValue) (key key' : string) (e : JsError) :
  destructure body key = Throw e -> exists e', destructure body key' = Throw e'.
Proof. destruct body; simpl; intros H; try discriminate; eauto. Qed.

End RouteFacts.

(** X14: for a body whose attachments can be logged, the answer depends
    on the messages alone: the attachments are read for the log and never
    reach the model. *)
Theorem POST_depends_on_messages_only (sdk : AiSdk) (apiKey : JsValue)
    (body body' messages attachments attachments' : JsValue) :
  destructure body "messages" = Ok messages ->
  destructure body' "messages" = Ok messages ->
  destructure body "experimental_attachments" = Ok attachments ->
  destructure body' "experimental_attachments" = Ok attachments' ->
  loggable attachments ->
  loggable attachments' ->
  POST apiKey {| json := Ok body |} = POST apiKey {| json := Ok body' |}.
Proof.
  intros Hm Hm' Ha Ha' Hl Hl'. unfold POST. simpl.
  rewrite Hm, Hm', Ha, Ha'. simpl.
  by rewrite !logging_returns.
Qed.

Lemma POST_depends_on_messages_only_witness :
  @POST Demo.sdk (JStr "sk-test")
    {| json := Ok (JObj [("messages", JArr [Demo.hello]);
                         ("experimental_attachments", JArr [Demo.notes; Demo.image])]) |}
  = @POST Demo.sdk (JStr "sk-test")
      {| json := Ok (JObj [("messages", JArr [Demo.hello])]) |}.
Proof.
  apply (POST_depends_on_messages_only Demo.sdk (JStr "sk-test") _ _
           (JArr [Demo.hello]) (JArr [Demo.notes; Demo.image]) JUndefined).
  - reflexivity.
  - reflexivity.
  - reflexivity.
  - reflexivity.
  - intros _. repeat constructor; discriminate.
  - intros H. discriminate H.
Defined.

(** X15: a request whose body is no JSON, whose body is [null], or whose
    attachments list holds a [null] or [undefined] element is answered
    with status 500 and the text [Error: ] followed by the message of the
    exception, although the attachments are only logged. *)
Theorem POST_bad_request (sdk : AiSdk) (apiKey : JsValue) (req : Request) (e : JsError) :
  BadRequest req e ->
  POST apiKey req = Ok (NewResponse ("Error: " +:+ message e) 500).
Proof.
  intros [Hj | body Hj Hd | body before after f Hj Ha Hb Hf]; unfold POST; rewrite Hj; simpl.
  - done.
  - by rewrite Hd.
  - destruct (destructure_any body _ _ "messages" Ha) as [m ->]. simpl.
    rewrite Ha. simpl. by rewrite (describe_nullish before after f e).
Qed.

Lemma POST_bad_request_witness :
  @POST Demo.sdk (JStr "sk-test")
    {| json := Ok (JObj [("messages", JArr [Demo.hello]);
                         ("experimental_attachments", JArr ([Demo.notes] ++ JNull :: []))]) |}
  = Ok (NewResponse
          ("Error: " +:+ "Cannot read properties of null (reading 'name')") 500).
Proof.
  apply (POST_bad_request Demo.sdk (JStr "sk-test") _
           (TypeError "Cannot read properties of null (reading 'name')")).
  eapply (attachmentNullish _ _ _ [Demo.notes] [] JNull).
  - reflexivity.
  - reflexivity.
  - repeat constructor; discriminate.
  - reflexivity.
Defined.

(** * Properties of the chat page *)

(** X16: whenever the Stop button is shown the input is disabled, the
    "Thinking..." label only appears next to the Stop button, and in any
    state other than [ready], [submitted] and [streaming] (after an
    error, say) the input is disabled and no Stop button is shown. *)
Theorem controls_by_status (status : string) :
  (stopButton (renderControls status) = true ->
   inputDisabled (renderControls status) = true)
  /\ (thinking (renderControls status) = true ->
      stopButton (renderControls status) = true)
  /\ (status <> "ready" -> status <> "submitted" -> status <> "streaming" ->
      inputDisabled (renderControls status) = true
      /\ stopButton (renderControls status) = false).
Proof.
  unfold renderControls. simpl.
  destruct (String.eqb_spec status "submitted") as [Hs|Hs];
    destruct (String.eqb_spec status "streaming") as [Ht|Ht];
    destruct (String.eqb_spec status "ready") as [Hr|Hr]; simpl;
    repeat split; intros; subst; done.
Qed.

(** * Further properties of the language table and of the output *)







Lemma page_loop_extends {host : PdfHost} (pdf : PDFDocumentProxy) (l : list nat)
    (fullText out : string) :
  for_of l (extractPage pdf) fullText = Ok out ->
  exists more, out = fullText +:+ more.
Proof.
  revert fullText. induction l as [|i l IH]; intros fullText; simpl.
  - intros [= <-]. exists EmptyString. by rewrite append_nil_r.
  - unfold extractPage at 1.
    destruct (getPage pdf i) as [page|e]; simpl; [|done].
    destruct (getTextContent page) as [tc|e]; simpl; [|done].
    intros H. destruct (IH _ H) as [more ->].
    eexists. by rewrite append_assoc.
Qed.

(** X18: what [extractTextFromPDF] returns has one of three shapes: the
    placeholder for some error, the empty string (a document without
    pages), or a text that begins with the separator line of page 1.  The
    placeholder begins with a bracket and the text with a line feed, so a
    caller can tell a failure from extracted text. *)
Theorem extraction_output_shape (host : PdfHost) (pdfDataUrl : JsValue) :
  exists out,
    extractTextFromPDF pdfDataUrl = Ok out
    /\ ((exists e, out = extractionFailure e)
        \/ out = EmptyString
        \/ exists rest, out = LF +:+ "--- Page 1 ---" +:+ LF +:+ rest)
    /\ forall e rest,
         extractionFailure e <> EmptyString
         /\ extractionFailure e <> LF +:+ rest.
Proof.
  assert (Hdistinct : forall e rest,
             extractionFailure e <> EmptyString /\ extractionFailure e <> LF +:+ rest)
    by (by intros [msg] rest; split).
  cut (exists out,
          extractTextFromPDF pdfDataUrl = Ok out
          /\ ((exists e, out = extractionFailure e)
              \/ out = EmptyString
              \/ exists rest, out = LF +:+ "--- Page 1 ---" +:+ LF +:+ rest)).
  { intros (out & H1 & H2). by exists out. }
  unfold extractTextFromPDF.
  destruct (callSplit pdfDataUrl) as [parts|e]; simpl; [|eauto].
  destruct (ToString (index_of parts 1)) as [encoded|e]; simpl; [|eauto].
  destruct (atob encoded) as [binaryString|e]; simpl; [|eauto].
  destruct (getDocument (bytesOf binaryString)) as [pdf|e]; simpl; [|eauto].
  destruct (numPages pdf) as [|n]; simpl; [eauto|].
  unfold extractPage at 1.
  destruct (getPage pdf 1) as [page|e]; simpl; [|eauto].
  destruct (getTextContent page) as [tc|e]; simpl; [|eauto].
  destruct (for_of (seq 2 n) (extractPage pdf) _) as [out|e] eqn:Hloop; simpl; [|eauto].
  destruct (page_loop_extends _ _ _ _ Hloop) as [more ->].
  eexists. split; [reflexivity|]. right. right.
  eexists. rewrite append_nil_l. unfold pageBlock.
  rewrite !append_assoc. reflexivity.
Qed.
